(** * RAG-Chatbot: the ingestion and query pipeline of [src/app/app.py]

    A shallow embedding of [get_chat_response], [upload_pdf_to_supabase]
    and [query_documents].  The hosted services (embedding model, chat
    model, vector store, file system, PDF reader) are an explicit
    environment; every call made to them is recorded in a call log, and
    Python exceptions are an explicit outcome. *)

From Stdlib Require Import ZArith String Ascii List Bool Lia DecimalString QArith.
From Stdlib Require Import Floats.SpecFloat.
From stdpp Require Import base gmap strings list sorting.

Open Scope Z_scope.

(* ===================================================================== *)
(** * Python data *)
(* ===================================================================== *)

(** Binary64, the representation of a Python [float]. *)
Definition prec : Z := 53.
Definition emax : Z := 1024.

(** The float nearest to the decimal literal [n / d] (round half to even),
    as the Python parser and the JSON decoder produce it. *)
Definition float_of_ratio (n d : Z) : spec_float :=
  SFdiv prec emax (binary_normalize prec emax n 0 false)
                  (binary_normalize prec emax d 0 false).

(** JSON-shaped Python values: what a row of the store may hold. *)
#[warnings="-register-all"]
Inductive PyVal : Type :=
| PyNone
| PyBool (b : bool)
| PyInt (z : Z)
| PyFloat (f : spec_float)
| PyStr (s : string)
| PyList (l : list PyVal)
| PyDict (d : list (string * PyVal)).

(** A raised exception: an instance of (a subclass of) [Exception], with
    its class name and [str(e)].  Signals deriving from [BaseException]
    only (KeyboardInterrupt, SystemExit) are outside the model. *)
Record Exn : Type := mkExn { exn_class : string; exn_str : string }.

Inductive Outcome (A : Type) : Type :=
| Returned (a : A)
| Raised (e : Exn).
Arguments Returned {A} a.
Arguments Raised {A} e.

(** [str(z)] for an [int]. *)
Definition str_of_Z (z : Z) : string := NilZero.string_of_int (Z.to_int z).

(** Three digits, zero padded: the fractional part of [.3f]. *)
Definition pad3 (n : Z) : string :=
  let s := str_of_Z n in
  match String.length s with
  | 1%nat => "00" +:+ s
  | 2%nat => "0" +:+ s
  | _ => s
  end.

(** Nearest integer to [x * 2^e], ties to even ([x >= 0]). *)
Definition round_half_even (x e : Z) : Z :=
  if 0 <=? e then x * 2 ^ e
  else
    let d := 2 ^ (- e) in
    let q := x / d in
    let r := x mod d in
    match 2 * r ?= d with
    | Lt => q
    | Gt => q + 1
    | Eq => if Z.even q then q else q + 1
    end.

Definition sign_str (s : bool) : string := if s then "-" else "".

(** [format(f, '.3f')] for a [float]: the exact binary value, correctly
    rounded to three decimals. *)
Definition float_format_3f (f : spec_float) : string :=
  match f with
  | S754_nan => "nan"
  | S754_infinity s => sign_str s +:+ "inf"
  | S754_zero s => sign_str s +:+ "0.000"
  | S754_finite s m e =>
      let n := round_half_even (Z.pos m * 1000) e in
      sign_str s +:+ str_of_Z (n / 1000) +:+ "." +:+ pad3 (n mod 1000)
  end.

(** [float(z)] for an [int]: OverflowError when out of range. *)
Definition float_of_int (z : Z) : Outcome spec_float :=
  match binary_normalize prec emax z 0 false with
  | S754_infinity _ | S754_nan =>
      Raised (mkExn "OverflowError" "int too large to convert to float")
  | f => Returned f
  end.

(** [format(v, '.3f')]: numbers format, everything else raises. *)
Definition format_3f (v : PyVal) : Outcome string :=
  match v with
  | PyFloat f => Returned (float_format_3f f)
  | PyInt z =>
      match float_of_int z with
      | Returned f => Returned (float_format_3f f)
      | Raised e => Raised e
      end
  | PyBool b => Returned (if b then "1.000" else "0.000")
  | PyStr _ =>
      Raised (mkExn "ValueError" "Unknown format code 'f' for object of type 'str'")
  | PyNone =>
      Raised (mkExn "TypeError" "unsupported format string passed to NoneType.__format__")
  | PyList _ =>
      Raised (mkExn "TypeError" "unsupported format string passed to list.__format__")
  | PyDict _ =>
      Raised (mkExn "TypeError" "unsupported format string passed to dict.__format__")
  end.

(** A row returned by the store: a Python [dict] with string keys. *)
Abbreviation Row := (gmap string PyVal).

(** [d.get(k, default)]. *)
Definition dict_get (d : Row) (k : string) (dflt : PyVal) : PyVal :=
  default dflt (d !! k).

(** [d[k]]: KeyError when the key is absent; [str(KeyError(k))] is the
    repr of the key. *)
Definition dict_getitem (d : Row) (k : string) : Outcome PyVal :=
  match d !! k with
  | Some v => Returned v
  | None => Raised (mkExn "KeyError" ("'" +:+ k +:+ "'"))
  end.

(** [sep.join(parts)]. *)
Fixpoint str_join (sep : string) (parts : list string) : string :=
  match parts with
  | [] => ""
  | [p] => p
  | p :: rest => p +:+ sep +:+ str_join sep rest
  end.

Definition LF : string := String (ascii_of_nat 10) "".


(** [x or ""] for an optional string. *)
Definition or_empty (x : option string) : string := default "" x.

(** Truthiness of an optional string ([None] and [""] are falsy). *)
Definition str_truthy (x : option string) : bool :=
  match x with
  | Some (String _ _) => true
  | _ => false
  end.

(** [posixpath.join(a, b)] for a relative [b]. *)
Fixpoint ends_with_slash (a : string) : bool :=
  match a with
  | "" => true
  | String c "" => if Ascii.eqb c "/" then true else false
  | String _ t => ends_with_slash t
  end.

Definition path_join (a b : string) : string :=
  if ends_with_slash a then a +:+ b else a +:+ "/" +:+ b.

(** [posixpath.basename(p)]: what follows the last slash. *)
Fixpoint basename_go (cur : string) (p : string) : string :=
  match p with
  | "" => String.rev cur
  | String c t =>
      if Ascii.eqb c "/" then basename_go "" t else basename_go (String c cur) t
  end.

Definition basename (p : string) : string := basename_go "" p.

(* ===================================================================== *)
(** * The outside world *)
(* ===================================================================== *)

(** An embedding vector, and the response of [models.embed_content]:
    [response.embeddings] is an optional list whose items carry optional
    [values]. *)
Abbreviation Vector := (list spec_float).

Record EmbedResponse : Type := { embeddings : option (list (option Vector)) }.

(** The response of [models.generate_content]: only [.text] is read. *)
Record GenerateResponse : Type := { text : option string }.

(** The parameter object of the [match_documents_hybrid] call. *)
Record RpcParams : Type := {
  query_embedding : option Vector;
  query_text : string;
  match_threshold : spec_float;
  match_count : Z;
  semantic_weight : spec_float
}.

(** The response of [supabase.rpc(...).execute()]: [.data] is [None] or a
    list of rows. *)
Record RpcResponse : Type := { data : option (list Row) }.

(** The dict built per chunk at ingestion. *)
Record StoredRow : Type := {
  pdf_name : string;
  page_number : Z;
  content : string;
  embedding : option Vector
}.

(** A page of a [PdfReader]: what [extract_text()] does on it. *)
Record Page : Type := { extract_text : Outcome (option string) }.

(** Every call that leaves the process, in program order. *)
Inductive Call : Type :=
| EmbedContent (model contents : string)
| GenerateContent (model contents : string)
| RpcExecute (fn : string) (params : RpcParams)
| InsertExecute (table : string) (rows : list StoredRow)
| PathExists (path : string)
| PdfReaderOpen (path : string)
| Print (line : string).

(** The calls that go over the network. *)
Definition is_network_call (c : Call) : bool :=
  match c with
  | EmbedContent _ _ | GenerateContent _ _ | RpcExecute _ _ | InsertExecute _ _ => true
  | _ => false
  end.

Definition is_chat_call (c : Call) : bool :=
  match c with
  | GenerateContent _ _ => true
  | _ => false
  end.

(** The services: each answers a call as a function of the calls made so
    far, so that they may keep state, fail once and work later, and so on. *)
Record Services : Type := {
  embed_content : list Call -> string -> string -> Outcome EmbedResponse;
  generate_content : list Call -> string -> string -> Outcome GenerateResponse;
  rpc_execute : list Call -> string -> RpcParams -> Outcome RpcResponse;
  insert_execute : list Call -> string -> list StoredRow -> Outcome unit;
  path_exists : list Call -> string -> bool;
  pdf_reader : list Call -> string -> Outcome (list Page)
}.

(** The module globals read from the environment at import (lines
    11-17).  Which of them a function of the module can meet is decided
    by the rest of the import, [import_app] below. *)
Record Globals : Type := {
  SUPABASE_URL : option string;
  SUPABASE_KEY : option string;
  script_dir : string
}.

Definition PDF_PATH (g : Globals) : string :=
  path_join (path_join (path_join (script_dir g) "..") "data") "Ebook_Agentic_AI.pdf".

Definition TABLE_NAME : string := "pdf_pages".

(* ===================================================================== *)
(** * The monad of Python computations *)
(* ===================================================================== *)

(** A computation reads the services, extends the call log and either
    returns or raises. *)
Definition Py (A : Type) : Type := Services -> list Call -> Outcome A * list Call.

Definition ret {A} (a : A) : Py A := fun _ log => (Returned a, log).

Definition raise {A} (e : Exn) : Py A := fun _ log => (Raised e, log).

Definition bind {A B} (m : Py A) (k : A -> Py B) : Py B :=
  fun sv log =>
    match m sv log with
    | (Returned a, log') => k a sv log'
    | (Raised e, log') => (Raised e, log')
    end.

(** [try: body  except Exception as e: handler(e)]. *)
Definition try_except {A} (body : Py A) (handler : Exn -> Py A) : Py A :=
  fun sv log =>
    match body sv log with
    | (Returned a, log') => (Returned a, log')
    | (Raised e, log') => handler e sv log'
    end.

(** Lift a pure outcome. *)
Definition lift {A} (o : Outcome A) : Py A := fun _ log => (o, log).

(** Perform a call: ask the service, then log the call. *)
Definition call {A} (c : Call) (ask : Services -> list Call -> Outcome A) : Py A :=
  fun sv log => (ask sv log, log ++ [c]).

Declare Scope py_scope.
Delimit Scope py_scope with py.
Notation "'do' x <- m ; k" := (bind m (fun x => k))
  (at level 10, x name, m at level 100, k at level 200) : py_scope.
Notation "'do_' m ; k" := (bind m (fun _ => k))
  (at level 10, m at level 100, k at level 200) : py_scope.
Open Scope py_scope.

Definition py_embed_content (model contents : string) : Py EmbedResponse :=
  call (EmbedContent model contents) (fun sv log => embed_content sv log model contents).

Definition py_generate_content (model contents : string) : Py GenerateResponse :=
  call (GenerateContent model contents) (fun sv log => generate_content sv log model contents).

Definition py_rpc (fn : string) (params : RpcParams) : Py RpcResponse :=
  call (RpcExecute fn params) (fun sv log => rpc_execute sv log fn params).

Definition py_insert (table : string) (rows : list StoredRow) : Py unit :=
  call (InsertExecute table rows) (fun sv log => insert_execute sv log table rows).

Definition py_path_exists (path : string) : Py bool :=
  call (PathExists path) (fun sv log => Returned (path_exists sv log path)).

Definition py_pdf_reader (path : string) : Py (list Page) :=
  call (PdfReaderOpen path) (fun sv log => pdf_reader sv log path).

Definition py_print (line : string) : Py unit :=
  call (Print line) (fun _ _ => Returned tt).

(** [response.embeddings[0].values]. *)
Definition first_embedding_values (r : EmbedResponse) : Outcome (option Vector) :=
  match embeddings r with
  | None => Raised (mkExn "TypeError" "'NoneType' object is not subscriptable")
  | Some [] => Raised (mkExn "IndexError" "list index out of range")
  | Some (e :: _) => Returned e
  end.

(* ===================================================================== *)
(** * The chunker *)
(* ===================================================================== *)

(** [RecursiveCharacterTextSplitter] belongs to the package
    langchain_text_splitters, whose code is not under src/: what follows
    is the chunker as section 4.2 of the spec describes it.  The spec
    leaves open where a separator goes once the text is cut; here it
    stays at the head of the fragment it starts, so that no character of
    the input is lost. *)
Module Chunker.

(** The configuration handed to [RecursiveCharacterTextSplitter]. *)
Record TextSplitter : Type := {
  chunk_size : nat;
  chunk_overlap : nat;
  separators : list string
}.

Abbreviation text := (list ascii).

Fixpoint is_prefix (p s : text) : bool :=
  match p, s with
  | [], _ => true
  | _ :: _, [] => false
  | a :: p', b :: s' => if Ascii.eqb a b then is_prefix p' s' else false
  end.

(** Does [sep] occur in [s]? *)
Fixpoint occurs (sep s : text) : bool :=
  match s with
  | [] => is_prefix sep []
  | _ :: t => is_prefix sep s || occurs sep t
  end.

(** Modelled from the spec: the cut of a text on one separator (absent
    from src/).  [s] is cut in front of every occurrence of [sep]
    (leftmost first, not overlapping): [cur] is the fragment being built,
    reversed, and [skip] the number of characters of the separator just
    met that are still to be passed over. *)
Fixpoint cut (sep : text) (skip : nat) (cur : text) (s : text) : list text :=
  match s with
  | [] => [rev cur]
  | c :: t =>
      match skip with
      | S k => cut sep k (c :: cur) t
      | O =>
          if is_prefix sep s
          then rev cur :: cut sep (length sep - 1) [c] t
          else cut sep 0 (c :: cur) t
      end
  end.

Definition nonempty (f : text) : bool :=
  match f with [] => false | _ => true end.

(** Modelled from the spec: the recursive split (absent from src/).
    Spec 4.2: "recursively attempt to split on separators in priority
    order (paragraph break, line break, space, character boundary)".  A
    piece longer than [max_size] is split again with the separators that
    remain; the empty separator cuts at every character boundary. *)
Fixpoint fragments (max_size : nat) (seps : list text) (s : text) : list text :=
  match seps with
  | [] => List.filter nonempty [s]
  | sep :: rest =>
      match sep with
      | [] => map (fun c => [c]) s
      | _ :: _ =>
          if occurs sep s
          then flat_map
                 (fun piece =>
                    if (length piece <=? max_size)%nat then [piece]
                    else fragments max_size rest piece)
                 (List.filter nonempty (cut sep 0 [] s))
          else fragments max_size rest s
      end
  end.

Section Merge.
Context {A : Type} (size : A -> nat).
Variables (max_size overlap : nat).

Definition total (win : list A) : nat := list_sum (map size win).

(** Modelled from the spec: the overlap (absent from src/).  Spec 4.2:
    "when advancing to the next chunk, back up by overlap
    characters/fragments so consecutive chunks share a trailing/leading
    span".  Fragments at the front of the window are given up until what
    is kept fits in [overlap] and leaves room for the fragment that comes
    next. *)
Fixpoint back_up (next : nat) (win : list A) : list A :=
  match win with
  | [] => []
  | _ :: rest =>
      if (overlap <? total win)%nat || (max_size <? total win + next)%nat
      then back_up next rest
      else win
  end.

(** Modelled from the spec: the merge (absent from src/).  Spec 4.2:
    "merge adjacent fragments greedily until reaching max_size".
    Fragments join the window while it stays within [max_size]; a full
    window is emitted, with the size [k] of the span it shares with the
    chunk before it. *)
Fixpoint merge (k : nat) (win : list A) (frags : list A) : list (nat * list A) :=
  match frags with
  | [] => match win with [] => [] | _ :: _ => [(k, win)] end
  | f :: rest =>
      if (max_size <? total win + size f)%nat
      then match win with
           | [] => merge 0 [f] rest
           | _ :: _ =>
               let kept := back_up (size f) win in
               (k, win) :: merge (total kept) (kept ++ [f]) rest
           end
      else merge k (win ++ [f]) rest
  end.
End Merge.

(** Modelled from the spec: the chunks of [s] (absent from src/), each
    with the length of the span it shares with the chunk before it. *)
Definition split_overlaps (ts : TextSplitter) (s : text) : list (nat * text) :=
  map (fun kw => (fst kw, concat (snd kw)))
      (merge (@length ascii) (chunk_size ts) (chunk_overlap ts) 0 []
         (fragments (chunk_size ts) (map list_ascii_of_string (separators ts)) s)).

(** Modelled from the spec: [RecursiveCharacterTextSplitter.split_text] of
    the langchain_text_splitters package, which is not under src/.  Spec
    4.2: split on the separators in priority order (paragraph break, line
    break, space, character boundary), recursively; merge adjacent
    fragments greedily until reaching max_size; when advancing to the next
    chunk back up by overlap, so that consecutive chunks share a span;
    empty input gives the empty sequence. *)
Definition split_text (ts : TextSplitter) (s : string) : list string :=
  map (fun kc => string_of_list_ascii (snd kc))
      (split_overlaps ts (list_ascii_of_string s)).

(** What is left of the chunks once the shared spans are removed. *)
Definition reassemble (cs : list (nat * text)) : text :=
  concat (map (fun kc => drop (fst kc) (snd kc)) cs).

(** Each chunk begins with the span it shares with the chunk before it:
    its first [k] characters are the last [k] characters of that chunk. *)
Fixpoint shared_spans (prev : text) (cs : list (nat * text)) : Prop :=
  match cs with
  | [] => True
  | kc :: rest =>
      (fst kc <= length (snd kc))%nat
      /\ take (fst kc) (snd kc) `suffix_of` prev
      /\ shared_spans (snd kc) rest
  end.

End Chunker.

(* ===================================================================== *)
(** * The application: [src/app/app.py] *)
(* ===================================================================== *)

(** Sequencing of pure steps that may raise. *)
Definition and_then {A B} (o : Outcome A) (k : A -> Outcome B) : Outcome B :=
  match o with
  | Returned a => k a
  | Raised e => Raised e
  end.

(** Line 22, [create_client(SUPABASE_URL, SUPABASE_KEY)], is a statement
    of the module: it runs when the module is imported, before any of
    its functions can be called.  [create_client] belongs to the supabase
    package, whose code is not under src/: its constructor refuses a URL
    or a key that is missing ([None] or empty) by raising
    SupabaseException, the URL being looked at first.  What it does with
    values that are there is [connect], left to the world. *)
Definition create_client (connect : string -> string -> Outcome unit)
    (supabase_url supabase_key : option string) : Outcome unit :=
  if negb (str_truthy supabase_url)
  then Raised (mkExn "SupabaseException" "supabase_url is required")
  else if negb (str_truthy supabase_key)
  then Raised (mkExn "SupabaseException" "supabase_key is required")
  else connect (or_empty supabase_url) (or_empty supabase_key).

(** Lines 9-23: the import of the module.  The environment is read into
    the globals (lines 11-17), then the two clients are built: line 22 is
    [create_client], and [genai_client] is how line 23,
    [genai.Client(api_key=api_key)], ends.  The functions of the module
    exist, with the globals they read, once the import has returned. *)
Definition import_app (connect : string -> string -> Outcome unit)
    (genai_client : Outcome unit) (env : Globals) : Outcome Globals :=
  and_then (create_client connect (SUPABASE_URL env) (SUPABASE_KEY env)) (fun _ =>
  and_then genai_client (fun _ =>
  Returned env)).

Section App.

(** [repr] of floats, lists and dicts is CPython's own and is not
    modelled: it is a parameter of the development. *)
Variable py_repr : PyVal -> string.

(** [str(v)], which is what a replacement field without format spec
    inserts. *)
Definition py_str (v : PyVal) : string :=
  match v with
  | PyNone => "None"
  | PyBool b => if b then "True" else "False"
  | PyInt z => str_of_Z z
  | PyStr s => s
  | PyFloat _ | PyList _ | PyDict _ => py_repr v
  end.

(** Lines 25-34. *)
Definition get_chat_response (prompt_text : string) : Py (option string) :=
  try_except
    (do response <- py_generate_content "gemini-3-flash" prompt_text;
     ret (text response))
    (fun e => ret (Some ("Error: " +:+ exn_str e))).

Definition EMBEDDING_MODEL : string := "text-embedding-004".

Definition text_splitter : Chunker.TextSplitter :=
  {| Chunker.chunk_size := 1000;
     Chunker.chunk_overlap := 150;
     Chunker.separators := [LF +:+ LF; LF; " "; ""] |}.

(** Lines 72-89: the inner loop, one embedding call per chunk. *)
Fixpoint embed_chunks (name : string) (page_no : Z) (chunks : list string)
    (rows_to_insert : list StoredRow) : Py (list StoredRow) :=
  match chunks with
  | [] => ret rows_to_insert
  | chunk :: rest =>
      do response <- py_embed_content EMBEDDING_MODEL chunk;
      do embedding_vector <- lift (first_embedding_values response);
      let row := {| pdf_name := name; page_number := page_no;
                    content := chunk; embedding := embedding_vector |} in
      embed_chunks name page_no rest (rows_to_insert ++ [row])
  end.

(** Lines 65-89: the loop over [enumerate(reader.pages)]. *)
Fixpoint ingest_pages (name : string) (i : Z) (pages : list Page)
    (rows_to_insert : list StoredRow) : Py (list StoredRow) :=
  match pages with
  | [] => ret rows_to_insert
  | page :: rest =>
      do extracted <- lift (extract_text page);
      let text_content := or_empty extracted in
      let chunks := Chunker.split_text text_splitter text_content in
      do rows <- embed_chunks name (i + 1) chunks rows_to_insert;
      ingest_pages name (i + 1) rest rows
  end.

Definition str_of_nat (n : nat) : string := str_of_Z (Z.of_nat n).

(** Lines 36-103.  [None] is the result of falling off the end. *)
Definition upload_pdf_to_supabase (g : Globals) : Py (option string) :=
  if negb (str_truthy (SUPABASE_URL g)) || negb (str_truthy (SUPABASE_KEY g))
  then ret (Some "Error: Supabase credentials not found in .env file.")
  else
    do found <- py_path_exists (PDF_PATH g);
    if negb found
    then ret (Some ("Error: File not found at " +:+ PDF_PATH g))
    else
      try_except
        (do pages <- py_pdf_reader (PDF_PATH g);
         let name := basename (PDF_PATH g) in
         let total_pages := length pages in
         do_ py_print ("Processing '" +:+ name +:+ "' with "
                       +:+ str_of_nat total_pages +:+ " pages...");
         do rows_to_insert <- ingest_pages name 0 pages [];
         do_ py_print ("Extracted " +:+ str_of_nat (length rows_to_insert)
                       +:+ " pages. Uploading to Supabase...");
         do_ py_print ("Uploading " +:+ str_of_nat (length rows_to_insert)
                       +:+ " total chunks to Supabase...");
         do_ py_insert TABLE_NAME rows_to_insert;
         do_ py_print "Success! Data uploaded.";
         ret None)
        (fun e =>
           do_ py_print ("An error occurred: " +:+ exn_str e);
           ret None).

(** The ingestion as it is run: the module is imported, then
    [upload_pdf_to_supabase()] is called (line 158, once uncommented, or
    a caller of the module). *)
Definition run_upload (connect : string -> string -> Outcome unit)
    (genai_client : Outcome unit) (env : Globals) : Py (option string) :=
  do g <- lift (import_app connect genai_client env);
  upload_pdf_to_supabase g.

(** Lines 136-141: one labelled block.  The replacement fields are
    evaluated left to right: the score is formatted before
    [match['content']] is looked up. *)
Definition context_part (i : Z) (m : Row) : Outcome string :=
  let score := dict_get m "combined_score" (PyInt 0) in
  let name := py_str (dict_get m "pdf_name" (PyStr "Unknown")) in
  let page := py_str (dict_get m "page_number" (PyStr "?")) in
  and_then (format_3f score) (fun score_s =>
  and_then (dict_getitem m "content") (fun c =>
  Returned ("[Source " +:+ str_of_Z i +:+ " - " +:+ name +:+ " - "
            +:+ "Page " +:+ page +:+ " - Score: " +:+ score_s +:+ "]" +:+ LF
            +:+ py_str c +:+ LF))).

(** Lines 134-141: the loop over [enumerate(rpc_response.data, 1)]. *)
Fixpoint build_context_parts (i : Z) (rows : list Row) : Outcome (list string) :=
  match rows with
  | [] => Returned []
  | m :: rest =>
      and_then (context_part i m) (fun part =>
      and_then (build_context_parts (i + 1) rest) (fun parts =>
      Returned (part :: parts)))
  end.

(** Lines 146-154. *)
Definition full_prompt (context_text query : string) : string :=
  LF +:+ "    You are a helpful AI assistant. Answer the question based ONLY on the following context:" +:+ LF
  +:+ "    " +:+ LF
  +:+ "    CONTEXT:" +:+ LF
  +:+ "    " +:+ context_text +:+ LF
  +:+ "    " +:+ LF
  +:+ "    QUESTION:" +:+ LF
  +:+ "    " +:+ query +:+ LF
  +:+ "    ".

Definition NO_DOCUMENTS : string :=
  "No relevant documents found in the database to answer your question.".

(** The parameters of the hybrid query, lines 120-126. *)
Definition hybrid_params (query_vector : option Vector) (query : string) : RpcParams :=
  {| query_embedding := query_vector;
     query_text := query;
     match_threshold := float_of_ratio 3 10;
     match_count := 5;
     semantic_weight := float_of_ratio 7 10 |}.

(** Lines 105-156. *)
Definition query_documents (query : string) (use_hybrid : bool) : Py (option string) :=
  do response <- py_embed_content "text-embedding-004" query;
  do query_vector <- lift (first_embedding_values response);
  do rpc_response <- py_rpc "match_documents_hybrid" (hybrid_params query_vector query);
  match data rpc_response with
  | None | Some [] => ret (Some NO_DOCUMENTS)
  | Some rows =>
      do context_parts <- lift (build_context_parts 1 rows);
      let context_text := str_join (LF +:+ "---" +:+ LF) context_parts in
      get_chat_response (full_prompt context_text query)
  end.

End App.

(* ===================================================================== *)
(** * The store *)
(* ===================================================================== *)

Module Store.

(** The exact value of a finite float. *)
Definition float_value (f : spec_float) : Q :=
  match f with
  | S754_finite s m e =>
      let n := if s then Z.neg m else Z.pos m in
      if 0 <=? e then inject_Z (n * 2 ^ e) else n # Z.to_pos (2 ^ (- e))
  | _ => 0%Q
  end.

(** Modelled from the spec: the blend computed by the store function
    [match_documents_hybrid], a database function that is not under src/.
    Spec 4.4: combined score = semantic_weight * vector_similarity +
    (1 - semantic_weight) * lexical_score. *)
Definition combined_score (semantic_weight vector_similarity lexical_score : Q) : Q :=
  (semantic_weight * vector_similarity + (1 - semantic_weight) * lexical_score)%Q.

End Store.

(* ===================================================================== *)
(** * Vocabulary of the statements *)
(* ===================================================================== *)

(** The needles occur in [s] one after the other, without overlap. *)
Fixpoint occurs_in_order (needles : list string) (s : string) : Prop :=
  match needles with
  | [] => True
  | n :: rest => exists pre post, s = pre +:+ n +:+ post /\ occurs_in_order rest post
  end.

(** [strip_prefix n s] is what follows [n] at the head of [s]. *)
Fixpoint strip_prefix (n s : string) : option string :=
  match n, s with
  | "", _ => Some s
  | String _ _, "" => None
  | String a n', String b s' => if Ascii.eqb a b then strip_prefix n' s' else None
  end.

(** Split [s] around the leftmost occurrence of [n]. *)
Fixpoint split_at_first (n s : string) : option (string * string) :=
  match strip_prefix n s with
  | Some post => Some ("", post)
  | None =>
      match s with
      | "" => None
      | String c t =>
          match split_at_first n t with
          | Some (pre, post) => Some (String c pre, post)
          | None => None
          end
      end
  end.

(** The decision procedure for [occurs_in_order]: leftmost matches. *)
Fixpoint find_in_order (needles : list string) (s : string) : bool :=
  match needles with
  | [] => true
  | n :: rest =>
      match split_at_first n s with
      | Some (_, post) => find_in_order rest post
      | None => false
      end
  end.

(** [s[a:b]], for [a <= b]. *)
Definition str_slice (a b : nat) (s : string) : string :=
  string_of_list_ascii (take (b - a) (drop a (list_ascii_of_string s))).

(** A text without line break or space: no separator but the character
    boundary applies to it. *)
Definition plain_char (c : ascii) : bool :=
  negb (Ascii.eqb c (ascii_of_nat 10)) && negb (Ascii.eqb c " ").

Definition plain (s : string) : bool := forallb plain_char (list_ascii_of_string s).

(** [n] times the character [c]. *)
Definition chars (n : nat) (c : ascii) : string := string_of_list_ascii (repeat c n).

(** The rows handed to the store, and the texts handed to the embedding
    model, as the log has them. *)
Definition inserted_rows (log : list Call) : list StoredRow :=
  flat_map (fun c => match c with InsertExecute _ rows => rows | _ => [] end) log.

Definition embedded_texts (log : list Call) : list string :=
  flat_map (fun c => match c with EmbedContent _ t => [t] | _ => [] end) log.

(** The log once the query is embedded and the store has answered. *)
Definition asked (h : list Call) (query : string) (v : option Vector) : list Call :=
  h ++ [EmbedContent "text-embedding-004" query;
        RpcExecute "match_documents_hybrid" (hybrid_params v query)].

(** The block of a row that has its content and none of the optional
    fields. *)
Definition bare_block (py_repr : PyVal -> string) (i : Z) (c : PyVal) : string :=
  "[Source " +:+ str_of_Z i +:+ " - Unknown - Page ? - Score: 0.000]" +:+ LF
  +:+ py_str py_repr c +:+ LF.

(** The embedding service answers, whatever it is asked and whenever. *)
Definition embedding_up (sv : Services) : Prop :=
  forall hist contents, exists r v,
    embed_content sv hist EMBEDDING_MODEL contents = Returned r
    /\ first_embedding_values r = Returned v.

(** The dict of lines 83-88. *)
Definition row_of (name : string) (page_no : Z) (chunk : string) (v : option Vector)
  : StoredRow :=
  {| pdf_name := name; page_number := page_no; content := chunk; embedding := v |}.

(** Every call a computation adds to the log satisfies [P]. *)
Definition logs {A} (P : Call -> Prop) (m : Py A) : Prop :=
  forall sv h, exists calls, snd (m sv h) = h ++ calls /\ Forall P calls.

(** An embedding call names the one fixed model. *)
Definition embeds_with (model : string) (c : Call) : Prop :=
  match c with
  | EmbedContent m _ => m = model
  | _ => True
  end.

(** The score of a row, absent or present, goes through [.3f]. *)
Definition score_formats (m : Row) : bool :=
  match format_3f (dict_get m "combined_score" (PyInt 0)) with
  | Returned _ => true
  | Raised _ => false
  end.

Definition has_content (m : Row) : bool :=
  match m !! "content" with Some _ => true | None => false end.

(** What a row without 'content' makes the loop raise: the exception of
    the score format if its score does not format, the KeyError of the
    lookup if it does. *)
Definition missing_content_error (m : Row) : Exn :=
  match format_3f (dict_get m "combined_score" (PyInt 0)) with
  | Returned _ => mkExn "KeyError" "'content'"
  | Raised e => e
  end.

(** The three optional fields are all absent. *)
Definition bare (m : Row) : Prop :=
  m !! "combined_score" = None /\ m !! "pdf_name" = None /\ m !! "page_number" = None.

(** A block of the context, from what it shows: rank, document, page,
    score and text. *)
Definition labelled_block (i : Z) (name page score body : string) : string :=
  "[Source " +:+ str_of_Z i +:+ " - " +:+ name +:+ " - "
  +:+ "Page " +:+ page +:+ " - Score: " +:+ score +:+ "]" +:+ LF
  +:+ body +:+ LF.

(** What the claim says a row is rendered as: the rank [i], the name of
    the document or "Unknown", the page or "?", the score to three
    decimals or "0.000" (the default 0), and the content. *)
Definition renders (py_repr : PyVal -> string) (i : Z) (m : Row) (part : string) : Prop :=
  exists name page score c,
    part = labelled_block i name page score (py_str py_repr c)
    /\ m !! "content" = Some c
    /\ match m !! "pdf_name" with
       | Some x => name = py_str py_repr x
       | None => name = "Unknown"
       end
    /\ match m !! "page_number" with
       | Some x => page = py_str py_repr x
       | None => page = "?"
       end
    /\ match m !! "combined_score" with
       | Some x => format_3f x = Returned score
       | None => score = "0.000"
       end.

(** The pieces of a text: what the cut gives at the first separator, in
    priority order, that occurs in the text; every character on its own
    when none does. *)
Fixpoint pieces (seps : list Chunker.text) (s : Chunker.text) : list Chunker.text :=
  match seps with
  | [] => List.filter Chunker.nonempty [s]
  | sep :: rest =>
      match sep with
      | [] => map (fun c => [c]) s
      | _ :: _ =>
          if Chunker.occurs sep s
          then List.filter Chunker.nonempty (Chunker.cut sep 0 [] s)
          else pieces rest s
      end
  end.

(** The pieces of a page, for the separators of the ingestion. *)
Definition page_pieces (page : string) : list string :=
  map string_of_list_ascii
      (pieces (map list_ascii_of_string (Chunker.separators text_splitter))
              (list_ascii_of_string page)).

(** The length of the longest of some strings. *)
Definition longest (l : list string) : nat :=
  foldr (fun p n => Nat.max (String.length p) n) 0%nat l.

(** White space, as [str.isspace] has it for the first 256 code points. *)
Definition is_space (c : ascii) : bool :=
  let n := nat_of_ascii c in
  ((9 <=? n) && (n <=? 13) || (28 <=? n) && (n <=? 32)
   || (n =? 133) || (n =? 160))%nat.

(** A string of white space only. *)
Definition blank (s : string) : bool := forallb is_space (list_ascii_of_string s).

(** [n] times the string [s]. *)
Fixpoint times (n : nat) (s : string) : string :=
  match n with
  | O => ""
  | S k => s +:+ times k s
  end.

(* ===================================================================== *)
(** * Sample worlds *)
(* ===================================================================== *)

Definition half : spec_float := float_of_ratio 1 2.

(** The row of the prompt scenario. *)
Definition row_A : Row :=
  {[ "pdf_name" := PyStr "A"; "page_number" := PyInt 1;
     "combined_score" := PyFloat (float_of_ratio 812 1000);
     "content" := PyStr "X" ]}.

(** A row with its content and nothing else. *)
Definition row_Y : Row := {[ "content" := PyStr "Y" ]}.

(** A row with everything but its content. *)
Definition row_Z : Row :=
  {[ "pdf_name" := PyStr "A"; "page_number" := PyInt 2;
     "combined_score" := PyFloat half ]}.

(** A row without the name of its document. *)
Definition row_B : Row :=
  {[ "page_number" := PyInt 4; "combined_score" := PyFloat half;
     "content" := PyStr "B" ]}.

(** A row without its content, whose score is null. *)
Definition row_N : Row :=
  {[ "pdf_name" := PyStr "A"; "page_number" := PyInt 3;
     "combined_score" := PyNone ]}.

(** A world where every service answers; the store returns [rows]. *)
Definition answering (rows : option (list Row)) (pages : list Page) : Services := {|
  embed_content := fun _ _ _ => Returned {| embeddings := Some [Some [half]] |};
  generate_content := fun _ _ _ => Returned {| text := Some "An answer." |};
  rpc_execute := fun _ _ _ => Returned {| data := rows |};
  insert_execute := fun _ _ _ => Returned tt;
  path_exists := fun _ _ => true;
  pdf_reader := fun _ _ => Returned pages
|}.

(** A page of 1500 characters: three words of 299, 900 and 299 letters
    with a space between them. *)
Definition three_words : string :=
  chars 299 "a" +:+ " " +:+ chars 900 "b" +:+ " " +:+ chars 299 "c".

(** A page of 1500 characters without a space or a line break. *)
Definition one_word : string := chars 1500 "a".

(** A page of 1500 characters of prose: 250 words of five letters, each
    followed by a space. *)
Definition prose : string := times 250 "abcde ".

(** A page of 1500 characters: six words of 200, 298, 149, 351, 299 and
    198 letters with a space between them. *)
Definition six_words : string :=
  chars 200 "a" +:+ " " +:+ chars 298 "b" +:+ " " +:+ chars 149 "c" +:+ " "
  +:+ chars 351 "d" +:+ " " +:+ chars 299 "e" +:+ " " +:+ chars 198 "f".

Definition page_of (t : string) : Page := {| extract_text := Returned (Some t) |}.

Definition connect_error : Exn := mkExn "ConnectError" "[Errno 111] Connection refused".

(** A world where the embedding service is unreachable. *)
Definition embedding_down : Services := {|
  embed_content := fun _ _ _ => Raised connect_error;
  generate_content := fun _ _ _ => Returned {| text := Some "An answer." |};
  rpc_execute := fun _ _ _ => Returned {| data := Some [row_A] |};
  insert_execute := fun _ _ _ => Returned tt;
  path_exists := fun _ _ => true;
  pdf_reader := fun _ _ => Returned []
|}.

(** A world where the store is unreachable. *)
Definition store_down : Services := {|
  embed_content := fun _ _ _ => Returned {| embeddings := Some [Some [half]] |};
  generate_content := fun _ _ _ => Returned {| text := Some "An answer." |};
  rpc_execute := fun _ _ _ => Raised connect_error;
  insert_execute := fun _ _ _ => Raised connect_error;
  path_exists := fun _ _ => true;
  pdf_reader := fun _ _ => Returned []
|}.

(** A world where the chat model is unreachable. *)
Definition chat_down : Services := {|
  embed_content := fun _ _ _ => Returned {| embeddings := Some [Some [half]] |};
  generate_content := fun _ _ _ => Raised connect_error;
  rpc_execute := fun _ _ _ => Returned {| data := Some [row_A] |};
  insert_execute := fun _ _ _ => Returned tt;
  path_exists := fun _ _ => true;
  pdf_reader := fun _ _ => Returned []
|}.

Definition no_repr : PyVal -> string := fun _ => "".

Definition no_credentials : Globals :=
  {| SUPABASE_URL := None; SUPABASE_KEY := None; script_dir := "/srv/app" |}.

Definition with_credentials : Globals :=
  {| SUPABASE_URL := Some "https://db.example"; SUPABASE_KEY := Some "key";
     script_dir := "/srv/app" |}.

(** An environment with the URL of the store and without its key. *)
Definition no_key : Globals :=
  {| SUPABASE_URL := Some "https://db.example"; SUPABASE_KEY := None;
     script_dir := "/srv/app" |}.

(** A world where the clients can be built from whatever values they
    are given. *)
Definition connects : string -> string -> Outcome unit := fun _ _ => Returned tt.

(* ===================================================================== *)
(** * The driver: [src/app/app.py], lines 160-167 *)
(* ===================================================================== *)

(** What [print] writes for the value [query_documents] returns, a
    string or [None]. *)
Definition str_of_answer (answer : option string) : string := default "None" answer.

(** The body of [if __name__ == "__main__":]. *)
Definition main (py_repr : PyVal -> string) : Py unit :=
  let user_query := "What is agentic AI?" in
  do_ py_print ("Querying: " +:+ user_query);
  do answer <- query_documents py_repr user_query true;
  do_ py_print (LF +:+ "Answer:");
  py_print (str_of_answer answer).

(* ===================================================================== *)
(** * The chat front end: [src/app/ui.py] *)
(* ===================================================================== *)

Module Ui.

(** An entry of [st.session_state.messages]. *)
Record Message : Type := { role : string; content : option string }.

(** What a run of the script puts on the page, in order. *)
Inductive Widget : Type :=
| Title (body : string)
| ChatMessage (author : string) (body : option string)
| ChatInput (placeholder : string)
| Spinner (label : string).

(** The state in which a run of the script leaves things: how it ended,
    the messages of the session, the page, the call log. *)
Record Run : Type := {
  outcome : Outcome unit;
  messages : list Message;
  screen : list Widget;
  log : list Call
}.

Definition user_message (prompt : string) : Message :=
  {| role := "user"; content := Some prompt |}.

Definition assistant_message (response : option string) : Message :=
  {| role := "assistant"; content := response |}.

(** [st.chat_message(msg["role"]).write(msg["content"])]. *)
Definition render (msg : Message) : Widget := ChatMessage (role msg) (content msg).

(** One run of the script.  [session_state] is the value under the key
    "messages", [None] before the first run; [chat_input] is what
    [st.chat_input] returns, [None] when nothing was submitted. *)
Definition script (py_repr : PyVal -> string) (chat_input : option string)
    (session_state : option (list Message)) (sv : Services) (log0 : list Call) : Run :=
  let history := default [] session_state in
  let page := Title "RAG Chatbot" :: map render history
              ++ [ChatInput "What is on your mind?"] in
  if str_truthy chat_input then
    let prompt := or_empty chat_input in
    let history1 := history ++ [user_message prompt] in
    let page1 := page ++ [ChatMessage "user" (Some prompt); Spinner "Thinking..."] in
    match query_documents py_repr prompt true sv log0 with
    | (Returned response, log1) =>
        {| outcome := Returned tt;
           messages := history1 ++ [assistant_message response];
           screen := page1 ++ [ChatMessage "assistant" response];
           log := log1 |}
    | (Raised e, log1) =>
        {| outcome := Raised e; messages := history1; screen := page1; log := log1 |}
    end
  else
    {| outcome := Returned tt; messages := history; screen := page; log := log0 |}.

(** The script is run again at every interaction; the session state
    outlives a run, however the run ended. *)
Fixpoint reruns (py_repr : PyVal -> string) (inputs : list (option string))
    (session_state : option (list Message)) (sv : Services) (log0 : list Call)
  : list Run :=
  match inputs with
  | [] => []
  | chat_input :: rest =>
      let run := script py_repr chat_input session_state sv log0 in
      run :: reruns py_repr rest (Some (messages run)) sv (log run)
  end.

(** The messages of the session once the runs are over. *)
Definition history_after (session_state : option (list Message)) (runs : list Run)
  : list Message :=
  match last runs with
  | Some run => messages run
  | None => default [] session_state
  end.

(** What was submitted, in order. *)
Definition prompts (inputs : list (option string)) : list string :=
  flat_map (fun i => if str_truthy i then [or_empty i] else []) inputs.

(** A question and its answer, as the session keeps them. *)
Definition exchange (qa : string * option string) : list Message :=
  [user_message (fst qa); assistant_message (snd qa)].

End Ui.

(* ===================================================================== *)
(** * More vocabulary *)
(* ===================================================================== *)

(** The chat messages that a page shows, in order. *)
Definition shown_messages (page : list Ui.Widget) : list Ui.Message :=
  flat_map (fun w => match w with
                     | Ui.ChatMessage author body =>
                         [{| Ui.role := author; Ui.content := body |}]
                     | _ => []
                     end) page.


(** The calls of the ingestion: the file system, the PDF and the insert. *)
Definition is_ingestion_call (c : Call) : bool :=
  match c with
  | InsertExecute _ _ | PathExists _ | PdfReaderOpen _ => true
  | _ => false
  end.

Definition is_insert (c : Call) : bool :=
  match c with
  | InsertExecute _ _ => true
  | _ => false
  end.

(** The three calls of the query path. *)
Definition embed_call (query : string) : Call :=
  EmbedContent "text-embedding-004" query.

Definition rpc_call (query : string) (v : option Vector) : Call :=
  RpcExecute "match_documents_hybrid" (hybrid_params v query).

Definition chat_call (prompt : string) : Call :=
  GenerateContent "gemini-3-flash" prompt.

(** What a block of the context shows of its row: its rank and its
    text. *)
Definition block_needles (py_repr : PyVal -> string) (i : Z) (m : Row) : list string :=
  ["[Source " +:+ str_of_Z i +:+ " - ";
   py_str py_repr (dict_get m "content" PyNone)].

Fixpoint rows_needles (py_repr : PyVal -> string) (i : Z) (rows : list Row)
  : list string :=
  match rows with
  | [] => []
  | m :: rest => block_needles py_repr i m ++ rows_needles py_repr (i + 1) rest
  end.

(** The lines a run of the ingestion ends with, once the page loop is
    over: the report of a failure, or the one insert and the report of
    how it went. *)
Definition upload_tail (sv : Services) (log : list Call) (o : Outcome (list StoredRow))
  : list Call :=
  match o with
  | Raised e => [Print ("An error occurred: " +:+ exn_str e)]
  | Returned rows =>
      let before := log ++ [Print ("Extracted " +:+ str_of_nat (length rows)
                                   +:+ " pages. Uploading to Supabase...");
                            Print ("Uploading " +:+ str_of_nat (length rows)
                                   +:+ " total chunks to Supabase...")] in
      [Print ("Extracted " +:+ str_of_nat (length rows)
              +:+ " pages. Uploading to Supabase...");
       Print ("Uploading " +:+ str_of_nat (length rows)
              +:+ " total chunks to Supabase...");
       InsertExecute TABLE_NAME rows;
       Print match insert_execute sv before TABLE_NAME rows with
             | Returned _ => "Success! Data uploaded."
             | Raised e => "An error occurred: " +:+ exn_str e
             end]
  end.

(** The log when the page loop starts. *)
Definition loop_start (g : Globals) (h : list Call) (pages : list Page) : list Call :=
  h ++ [PathExists (PDF_PATH g); PdfReaderOpen (PDF_PATH g);
        Print ("Processing '" +:+ basename (PDF_PATH g) +:+ "' with "
               +:+ str_of_nat (length pages) +:+ " pages...")].

(** The embedding service fails, whatever it is asked and whenever. *)
Definition embedding_fails (sv : Services) : Prop :=
  forall hist text, exists e, embed_content sv hist EMBEDDING_MODEL text = Raised e.

(** Three interactions: a question, nothing, another question. *)
Definition three_inputs : list (option string) := [Some "Q?"; None; Some "Why?"].

(** A row whose score is null. *)
Definition row_null_score : Row :=
  {[ "pdf_name" := PyStr "A"; "page_number" := PyInt 3;
     "combined_score" := PyNone; "content" := PyStr "Z" ]}.

(** A world whose PDF has one page, with the text [t]. *)
Definition one_page (t : string) (embedding : Outcome EmbedResponse) : Services := {|
  embed_content := fun _ _ _ => embedding;
  generate_content := fun _ _ _ => Returned {| text := Some "An answer." |};
  rpc_execute := fun _ _ _ => Returned {| data := Some [row_A] |};
  insert_execute := fun _ _ _ => Returned tt;
  path_exists := fun _ _ => true;
  pdf_reader := fun _ _ => Returned [page_of t]
|}.

(** A world where the PDF is not where it should be. *)
Definition file_missing : Services := {|
  embed_content := fun _ _ _ => Returned {| embeddings := Some [Some [half]] |};
  generate_content := fun _ _ _ => Returned {| text := Some "An answer." |};
  rpc_execute := fun _ _ _ => Returned {| data := Some [row_A] |};
  insert_execute := fun _ _ _ => Returned tt;
  path_exists := fun _ _ => false;
  pdf_reader := fun _ _ => Returned []
|}.

(* ===================================================================== *)
(** * Facts about the monad *)
(* ===================================================================== *)

Lemma bind_returned {A B} (m : Py A) (k : A -> Py B) sv h a h' :
  m sv h = (Returned a, h') -> bind m k sv h = k a sv h'.
Proof. intros H. unfold bind. by rewrite H. Qed.

Lemma call_run {A} c (ask : Services -> list Call -> Outcome A) sv h :
  call c ask sv h = (ask sv h, h ++ [c]).
Proof. done. Qed.

Lemma logs_ret {A} P (a : A) : logs P (ret a).
Proof. intros sv h. exists []. split; [simpl; by rewrite app_nil_r | constructor]. Qed.

Lemma logs_lift {A} P (o : Outcome A) : logs P (lift o).
Proof. intros sv h. exists []. split; [simpl; by rewrite app_nil_r | constructor]. Qed.

Lemma logs_call {A} (P : Call -> Prop) c (ask : Services -> list Call -> Outcome A) :
  P c -> logs P (call c ask).
Proof. intros Hc sv h. exists [c]. split; [done | by constructor]. Qed.

Lemma logs_bind {A B} P (m : Py A) (k : A -> Py B) :
  logs P m -> (forall a, logs P (k a)) -> logs P (bind m k).
Proof.
  intros Hm Hk sv h. unfold bind.
  destruct (Hm sv h) as (c1 & E1 & F1).
  destruct (m sv h) as [[a | e] h1]; simpl in E1; subst h1.
  - destruct (Hk a sv (h ++ c1)) as (c2 & E2 & F2).
    exists (c1 ++ c2). rewrite E2, app_assoc. split; [done | by apply Forall_app].
  - exists c1. done.
Qed.

Lemma logs_try {A} P (body : Py A) (handler : Exn -> Py A) :
  logs P body -> (forall e, logs P (handler e)) -> logs P (try_except body handler).
Proof.
  intros Hm Hk sv h. unfold try_except.
  destruct (Hm sv h) as (c1 & E1 & F1).
  destruct (body sv h) as [[a | e] h1]; simpl in E1; subst h1.
  - exists c1. done.
  - destruct (Hk e sv (h ++ c1)) as (c2 & E2 & F2).
    exists (c1 ++ c2). rewrite E2, app_assoc. split; [done | by apply Forall_app].
Qed.

(** One step of a proof that a computation logs only calls that
    satisfy a predicate, and as many steps as apply. *)
Ltac logs_step :=
  first [ apply logs_ret
        | apply logs_lift
        | apply logs_call; done
        | apply logs_bind; [| intros ?]
        | apply logs_try; [| intros ?] ].

Ltac logs_auto := repeat logs_step.

(* ===================================================================== *)
(** * The chat path *)
(* ===================================================================== *)

(** One run of [get_chat_response]. *)
Lemma get_chat_response_run (sv : Services) (h : list Call) (prompt : string) :
  get_chat_response prompt sv h =
    (Returned
       match generate_content sv h "gemini-3-flash" prompt with
       | Returned response => text response
       | Raised e => Some ("Error: " +:+ exn_str e)
       end,
     h ++ [GenerateContent "gemini-3-flash" prompt]).
Proof.
  unfold get_chat_response, try_except, bind, py_generate_content, call, ret.
  by destruct (generate_content sv h "gemini-3-flash" prompt).
Qed.

(** C7: when the chat-completion call returns, [get_chat_response]
    returns the generated text; when it raises, [get_chat_response]
    returns the string "Error: " followed by the text of the exception;
    in no case does an exception leave the function. *)
Theorem get_chat_response_never_raises (sv : Services) (h : list Call) (prompt : string) :
  let log := h ++ [GenerateContent "gemini-3-flash" prompt] in
  (forall response,
     generate_content sv h "gemini-3-flash" prompt = Returned response ->
     get_chat_response prompt sv h = (Returned (text response), log))
  /\ (forall e,
       generate_content sv h "gemini-3-flash" prompt = Raised e ->
       get_chat_response prompt sv h = (Returned (Some ("Error: " +:+ exn_str e)), log))
  /\ (forall e, fst (get_chat_response prompt sv h) <> Raised e).
Proof.
  rewrite get_chat_response_run. repeat split.
  - by intros response ->.
  - by intros e ->.
  - done.
Qed.

(** With the chat model unreachable. *)
Example get_chat_response_chat_down :
  get_chat_response "Hello" chat_down [] =
    (Returned (Some "Error: [Errno 111] Connection refused"),
     [GenerateContent "gemini-3-flash" "Hello"]).
Proof. reflexivity. Qed.

(* ===================================================================== *)
(** * Numbers *)
(* ===================================================================== *)

(** The float written 0.812 is within half a unit in the last place of
    812/1000, and prints as "0.812". *)
Example score_0812 :
  float_of_ratio 812 1000 = S754_finite false 7313845794849686 (-53)
  /\ 2 * Z.abs (7313845794849686 * 1000 - 812 * 2 ^ 53) <= 1000
  /\ format_3f (PyFloat (float_of_ratio 812 1000)) = Returned "0.812".
Proof. repeat split; by vm_compute. Qed.

(** The default score, the integer 0, prints as "0.000". *)
Example score_default : format_3f (PyInt 0) = Returned "0.000".
Proof. reflexivity. Qed.

(** Ties go to the even neighbour: 0.125 and 0.375 are exact in binary. *)
Example score_ties :
  format_3f (PyFloat (float_of_ratio 1 16)) = Returned "0.062"
  /\ format_3f (PyFloat (float_of_ratio 3 16)) = Returned "0.188"
  /\ format_3f (PyFloat (float_of_ratio 4125 1000)) = Returned "4.125".
Proof. repeat split; by vm_compute. Qed.

(* ===================================================================== *)
(** * Searching a string *)
(* ===================================================================== *)

Lemma strip_prefix_sound n : forall s post,
  strip_prefix n s = Some post -> s = n +:+ post.
Proof.
  induction n as [| a n IH]; intros s post H.
  - destruct s; simpl in H; by inversion H.
  - destruct s as [| b s]; simpl in H; [done |].
    destruct (Ascii.eqb_spec a b) as [-> |]; [| done].
    change (String b s = String b (n +:+ post)). f_equal. by apply IH.
Qed.

Lemma split_at_first_sound n : forall s pre post,
  split_at_first n s = Some (pre, post) -> s = pre +:+ n +:+ post.
Proof.
  induction s as [| c t IH]; intros pre post H; simpl in H.
  - destruct (strip_prefix n "") as [r |] eqn:E; [| done].
    inversion H; subst. by apply strip_prefix_sound in E.
  - destruct (strip_prefix n (String c t)) as [r |] eqn:E.
    + inversion H; subst. by apply strip_prefix_sound in E.
    + destruct (split_at_first n t) as [[a b] |] eqn:E2; [| done].
      inversion H; subst. change (String c t = String c (a +:+ n +:+ post)).
      f_equal. by apply IH.
Qed.

Lemma find_in_order_sound needles : forall s,
  find_in_order needles s = true -> occurs_in_order needles s.
Proof.
  induction needles as [| n rest IH]; intros s H; simpl in *; [done |].
  destruct (split_at_first n s) as [[pre post] |] eqn:E; [| done].
  exists pre, post. split; [by apply split_at_first_sound | by apply IH].
Qed.

(* ===================================================================== *)
(** * The query path *)
(* ===================================================================== *)

Section Query.

Variable py_repr : PyVal -> string.
Variables (sv : Services) (h : list Call).
Variables (query : string) (use_hybrid : bool).

(** The embedding call raises: nothing catches the exception. *)
Lemma query_documents_embed_raises e :
  embed_content sv h "text-embedding-004" query = Raised e ->
  query_documents py_repr query use_hybrid sv h =
    (Raised e, h ++ [EmbedContent "text-embedding-004" query]).
Proof.
  intros He. unfold query_documents, bind, py_embed_content, call. by rewrite He.
Qed.

(** What [query_documents] does once the store has answered. *)
Lemma query_documents_answered r v resp :
  embed_content sv h "text-embedding-004" query = Returned r ->
  first_embedding_values r = Returned v ->
  rpc_execute sv (h ++ [EmbedContent "text-embedding-004" query])
    "match_documents_hybrid" (hybrid_params v query) = Returned resp ->
  query_documents py_repr query use_hybrid sv h =
    match data resp with
    | None | Some [] => (Returned (Some NO_DOCUMENTS), asked h query v)
    | Some rows =>
        match build_context_parts py_repr 1 rows with
        | Returned parts =>
            get_chat_response
              (full_prompt (str_join (LF +:+ "---" +:+ LF) parts) query) sv
              (asked h query v)
        | Raised e => (Raised e, asked h query v)
        end
    end.
Proof.
  intros He Hv Hr.
  unfold query_documents, bind, py_embed_content, py_rpc, call, lift, asked.
  rewrite He, Hv, Hr, <- app_assoc. simpl app.
  by destruct (data resp) as [[| m rows] |].
Qed.

End Query.

(** C1: with the embedding service unreachable, the demonstration query
    does not come back as a string that starts with "Error: ": the
    exception raised by [embed_content] leaves [query_documents], after
    the one embedding call and nothing else. *)
Theorem query_documents_embedding_down :
  query_documents no_repr "What is agentic AI?" true embedding_down [] =
    (Raised connect_error, [EmbedContent "text-embedding-004" "What is agentic AI?"]).
Proof. by apply query_documents_embed_raises. Qed.

(** X2: a failure of the store during the hybrid query leaves
    [query_documents] as an exception, after the embedding call and the
    store call; the chat model is not called. *)
Theorem query_documents_store_failure (py_repr : PyVal -> string) (sv : Services)
    (h : list Call) (query : string) (use_hybrid : bool)
    (r : EmbedResponse) (v : option Vector) (e : Exn) :
  embed_content sv h "text-embedding-004" query = Returned r ->
  first_embedding_values r = Returned v ->
  rpc_execute sv (h ++ [EmbedContent "text-embedding-004" query])
    "match_documents_hybrid" (hybrid_params v query) = Raised e ->
  query_documents py_repr query use_hybrid sv h = (Raised e, asked h query v).
Proof.
  intros He Hv Hr.
  unfold query_documents, bind, py_embed_content, py_rpc, call, lift, asked.
  by rewrite He, Hv, Hr, <- app_assoc.
Qed.

Lemma query_documents_store_failure_witness :
  query_documents no_repr "Q?" true store_down [] =
    (Raised connect_error, asked [] "Q?" (Some [half])).
Proof.
  apply (query_documents_store_failure no_repr store_down [] "Q?" true
           {| embeddings := Some [Some [half]] |} (Some [half]) connect_error);
    reflexivity.
Defined.

(** C2: when the hybrid query returns no rows, [query_documents] returns
    the fixed message, and the calls it made are the embedding call and
    the store call: the chat model is not called. *)
Theorem query_documents_no_rows (py_repr : PyVal -> string) (sv : Services)
    (h : list Call) (query : string) (use_hybrid : bool)
    (r : EmbedResponse) (v : option Vector) (resp : RpcResponse) :
  embed_content sv h "text-embedding-004" query = Returned r ->
  first_embedding_values r = Returned v ->
  rpc_execute sv (h ++ [EmbedContent "text-embedding-004" query])
    "match_documents_hybrid" (hybrid_params v query) = Returned resp ->
  data resp = Some [] ->
  exists calls,
    query_documents py_repr query use_hybrid sv h =
      (Returned (Some NO_DOCUMENTS), h ++ calls)
    /\ existsb is_chat_call calls = false.
Proof.
  intros He Hv Hr Hd.
  rewrite (query_documents_answered py_repr sv h query use_hybrid r v resp He Hv Hr), Hd.
  by eexists.
Qed.

Lemma query_documents_no_rows_witness :
  exists calls,
    query_documents no_repr "What is agentic AI?" true (answering (Some []) []) [] =
      (Returned (Some NO_DOCUMENTS), [] ++ calls)
    /\ existsb is_chat_call calls = false.
Proof.
  apply (query_documents_no_rows no_repr (answering (Some []) []) []
           "What is agentic AI?" true
           {| embeddings := Some [Some [half]] |} (Some [half]) {| data := Some [] |});
    reflexivity.
Defined.

(** C4: for the match list holding the one row
    {pdf_name: "A", page_number: 1, combined_score: 0.812, content: "X"}
    and the question "Q?", the prompt handed to the chat model holds
    "Page 1", "0.812", "X" and "Q?", in that order. *)
Theorem prompt_of_scenario (py_repr : PyVal -> string) (sv : Services)
    (h : list Call) (use_hybrid : bool)
    (r : EmbedResponse) (v : option Vector) (resp : RpcResponse) :
  embed_content sv h "text-embedding-004" "Q?" = Returned r ->
  first_embedding_values r = Returned v ->
  rpc_execute sv (h ++ [EmbedContent "text-embedding-004" "Q?"])
    "match_documents_hybrid" (hybrid_params v "Q?") = Returned resp ->
  data resp = Some [row_A] ->
  exists prompt,
    snd (query_documents py_repr "Q?" use_hybrid sv h) =
      asked h "Q?" v ++ [GenerateContent "gemini-3-flash" prompt]
    /\ occurs_in_order ["Page 1"; "0.812"; "X"; "Q?"] prompt.
Proof.
  intros He Hv Hr Hd.
  rewrite (query_documents_answered py_repr sv h "Q?" use_hybrid r v resp He Hv Hr), Hd.
  replace (build_context_parts py_repr 1 [row_A])
    with (Returned ["[Source 1 - A - Page 1 - Score: 0.812]" +:+ LF +:+ "X" +:+ LF])
    by (by vm_compute).
  rewrite get_chat_response_run.
  eexists. split; [reflexivity |].
  apply find_in_order_sound. by vm_compute.
Qed.

Lemma prompt_of_scenario_witness :
  exists prompt,
    snd (query_documents no_repr "Q?" true (answering (Some [row_A]) []) []) =
      asked [] "Q?" (Some [half]) ++ [GenerateContent "gemini-3-flash" prompt]
    /\ occurs_in_order ["Page 1"; "0.812"; "X"; "Q?"] prompt.
Proof.
  apply (prompt_of_scenario no_repr (answering (Some [row_A]) []) [] true
           {| embeddings := Some [Some [half]] |} (Some [half])
           {| data := Some [row_A] |});
    reflexivity.
Defined.

(* ===================================================================== *)
(** * The context loop *)
(* ===================================================================== *)

Section ContextLoop.

Variable py_repr : PyVal -> string.

Lemma context_part_bare i m c :
  bare m -> m !! "content" = Some c ->
  context_part py_repr i m = Returned (bare_block py_repr i c).
Proof.
  intros (Hs & Hn & Hp) Hc.
  unfold context_part, dict_get, dict_getitem. by rewrite Hs, Hn, Hp, Hc.
Qed.

Lemma context_part_returns i m :
  score_formats m = true -> has_content m = true ->
  exists part, context_part py_repr i m = Returned part.
Proof.
  unfold score_formats, has_content, context_part, dict_getitem. intros Hs Hc.
  destruct (format_3f (dict_get m "combined_score" (PyInt 0))); [| done].
  destruct (m !! "content"); [| done]. by eexists.
Qed.

Lemma context_part_key_error i m :
  score_formats m = true -> has_content m = false ->
  context_part py_repr i m = Raised (mkExn "KeyError" "'content'").
Proof.
  unfold score_formats, has_content, context_part, dict_getitem. intros Hs Hc.
  destruct (format_3f (dict_get m "combined_score" (PyInt 0))); [| done].
  by destruct (m !! "content").
Qed.

(** With every score formattable and every content present the loop
    runs to its end, one block per row. *)
Lemma build_context_parts_returns rows : forall i,
  Forall (fun m => score_formats m = true) rows ->
  Forall (fun m => has_content m = true) rows ->
  exists parts,
    build_context_parts py_repr i rows = Returned parts
    /\ length parts = length rows
    /\ forall (j : nat) m c,
         rows !! j = Some m -> bare m -> m !! "content" = Some c ->
         parts !! j = Some (bare_block py_repr (i + Z.of_nat j) c).
Proof.
  induction rows as [| m rows IH]; intros i Hs Hc.
  - exists []. split; [done |]. split; [done |]. intros j ? ? Hj; by destruct j.
  - inversion Hs as [| ? ? Hs1 Hs2]; inversion Hc as [| ? ? Hc1 Hc2]; subst.
    destruct (context_part_returns i m Hs1 Hc1) as [part Hpart].
    destruct (IH (i + 1) Hs2 Hc2) as (parts & Hparts & Hlen & Hbare).
    exists (part :: parts). simpl. rewrite Hpart. simpl. rewrite Hparts. simpl.
    split; [done |]. split; [by rewrite Hlen |].
    intros [| j] m' c Hj Hb Hm'; simpl in *.
    + inversion Hj; subst m'. rewrite (context_part_bare i m c Hb Hm') in Hpart.
      inversion Hpart. by rewrite Z.add_0_r.
    + rewrite (Hbare j m' c Hj Hb Hm'). do 2 f_equal. lia.
Qed.

(** With every score formattable, the first row without content stops
    the loop with a KeyError. *)
Lemma build_context_parts_key_error rows : forall i,
  Forall (fun m => score_formats m = true) rows ->
  Exists (fun m => has_content m = false) rows ->
  build_context_parts py_repr i rows = Raised (mkExn "KeyError" "'content'").
Proof.
  induction rows as [| m rows IH]; intros i Hs Hex; [by inversion Hex |].
  inversion Hs as [| ? ? Hs1 Hs2]; subst. simpl.
  destruct (has_content m) eqn:Hc.
  - destruct (context_part_returns i m Hs1 Hc) as [part ->]. simpl.
    rewrite IH; [done | done |].
    inversion Hex as [? ? Hm | ]; [congruence | done].
  - by rewrite (context_part_key_error i m Hs1 Hc).
Qed.

End ContextLoop.

Lemma score_formats_missing (m : Row) :
  m !! "combined_score" = None -> score_formats m = true.
Proof. intros H. unfold score_formats, dict_get. by rewrite H. Qed.

Lemma score_formats_float (m : Row) f :
  m !! "combined_score" = Some (PyFloat f) -> score_formats m = true.
Proof. intros H. unfold score_formats, dict_get. by rewrite H. Qed.

Section ContextBlocks.

Variable py_repr : PyVal -> string.

(** One block, field by field: each of the three optional fields is
    shown when the row has it and replaced by its default when not. *)
Lemma context_part_renders i m :
  has_content m = true -> score_formats m = true ->
  exists part, context_part py_repr i m = Returned part /\ renders py_repr i m part.
Proof.
  unfold has_content, score_formats, context_part, renders, dict_get, dict_getitem.
  intros Hc Hs.
  destruct (m !! "content") as [c |]; [| done].
  destruct (m !! "combined_score") as [x |]; simpl in Hs |- *.
  - destruct (format_3f x) as [score |] eqn:F; [| done].
    destruct (m !! "pdf_name") as [n |]; destruct (m !! "page_number") as [p |];
      eexists; (split; [reflexivity |]); by eexists _, _, score, c.
  - destruct (m !! "pdf_name") as [n |]; destruct (m !! "page_number") as [p |];
      eexists; (split; [reflexivity |]); by eexists _, _, "0.000", c.
Qed.

(** The loop over rows that have their content and a score that
    formats: one block per row, each field shown or defaulted. *)
Lemma build_context_parts_renders rows : forall i,
  Forall (fun m => has_content m = true) rows ->
  Forall (fun m => score_formats m = true) rows ->
  exists parts,
    build_context_parts py_repr i rows = Returned parts
    /\ length parts = length rows
    /\ forall (j : nat) m,
         rows !! j = Some m ->
         exists part, parts !! j = Some part
                      /\ renders py_repr (i + Z.of_nat j) m part.
Proof.
  induction rows as [| m rows IH]; intros i Hc Hs.
  - exists []. split; [done |]. split; [done |]. intros j ? Hj; by destruct j.
  - inversion Hs as [| ? ? Hs1 Hs2]; inversion Hc as [| ? ? Hc1 Hc2]; subst.
    destruct (context_part_renders i m Hc1 Hs1) as (part & Hpart & Hshown).
    destruct (IH (i + 1) Hc2 Hs2) as (parts & Hparts & Hlen & Hrest).
    exists (part :: parts). simpl. rewrite Hpart. simpl. rewrite Hparts. simpl.
    split; [done |]. split; [by rewrite Hlen |].
    intros [| j] m' Hj; simpl in *.
    + inversion Hj; subst m'. exists part. by rewrite Z.add_0_r.
    + destruct (Hrest j m' Hj) as (part' & Hj' & Hshown').
      exists part'. split; [done |].
      match goal with
      | |- renders _ ?z _ _ => by replace z with (i + 1 + Z.of_nat j) by lia
      end.
Qed.

(** The loop goes through the rows in order: what follows rows that gave
    their blocks is met with the next rank. *)
Lemma build_context_parts_app good rest : forall i parts,
  build_context_parts py_repr i good = Returned parts ->
  build_context_parts py_repr i (good ++ rest) =
    and_then (build_context_parts py_repr (i + Z.of_nat (length good)) rest)
             (fun more => Returned (parts ++ more)).
Proof.
  induction good as [| m good IH]; intros i parts H.
  - simpl in *. inversion H; subst. rewrite Z.add_0_r.
    by destruct (build_context_parts py_repr i rest).
  - cbn [build_context_parts app length] in *. rewrite Nat2Z.inj_succ.
    replace (i + Z.succ (Z.of_nat (length good))) with (i + 1 + Z.of_nat (length good))
      by lia.
    destruct (context_part py_repr i m) as [part | e]; simpl in *; [| done].
    destruct (build_context_parts py_repr (i + 1) good) as [ps | e] eqn:E;
      simpl in *; [| done].
    inversion H; subst. rewrite (IH (i + 1) ps E).
    by destruct (build_context_parts py_repr _ rest).
Qed.

(** A row without content raises: the score is formatted first, then
    the content is looked up. *)
Lemma context_part_without_content i m :
  has_content m = false ->
  context_part py_repr i m = Raised (missing_content_error m).
Proof.
  unfold has_content, context_part, missing_content_error, dict_getitem. intros Hc.
  destruct (format_3f (dict_get m "combined_score" (PyInt 0))); [| done].
  by destruct (m !! "content").
Qed.

(** The first row without content stops the loop, whatever comes after
    it. *)
Lemma build_context_parts_stops good m after : forall i,
  Forall (fun m => has_content m = true) good ->
  Forall (fun m => score_formats m = true) good ->
  has_content m = false ->
  build_context_parts py_repr i (good ++ m :: after)
  = Raised (missing_content_error m).
Proof.
  intros i Hc Hs Hm.
  destruct (build_context_parts_renders good i Hc Hs) as (parts & Hparts & _).
  rewrite (build_context_parts_app good (m :: after) i parts Hparts).
  cbn [build_context_parts].
  by rewrite (context_part_without_content _ m Hm).
Qed.

End ContextBlocks.

(** Every list of rows is made of rows that have their content, then
    nothing or a row that lacks it and what follows. *)
Lemma first_row_without_content (rows : list Row) :
  exists good rest,
    rows = good ++ rest
    /\ Forall (fun m => has_content m = true) good
    /\ match rest with [] => True | m :: _ => has_content m = false end.
Proof.
  induction rows as [| m rows (good & rest & -> & Hgood & Hrest)].
  - by exists [], [].
  - destruct (has_content m) eqn:Hm.
    + exists (m :: good), rest. split; [done |]. split; [by constructor | done].
    + by exists [], (m :: good ++ rest).
Qed.

(** C10, as stated, fails: a row that lacks its 'content' and whose
    combined_score is null makes [query_documents] raise the TypeError of
    the score format, not a KeyError. *)
Lemma null_score_before_missing_content :
  has_content row_N = false
  /\ query_documents no_repr "Q?" true (answering (Some [row_N]) []) [] =
      (Raised (mkExn "TypeError"
                 "unsupported format string passed to NoneType.__format__"),
       asked [] "Q?" (Some [half])).
Proof. split; by vm_compute. Qed.

(** C10, amended: the rows returned by the store, not empty, are the
    rows [good], which have their 'content' and a combined_score that is
    absent or formats as a number, followed by [rest], which is empty or
    starts with a row that lacks 'content'.  The loop gives one block for
    each row of [good]: a missing pdf_name is shown as "Unknown", a
    missing page_number as "?", a missing combined_score as "0.000", each
    on its own.  If [rest] is empty, [query_documents] hands the blocks
    to the chat model and returns.  If not, it raises instead of
    returning a string: KeyError when the combined_score of the row
    without 'content' is absent or formats as a number, and the
    exception of the score format when it does not. *)
Theorem context_loop_needs_content (py_repr : PyVal -> string) (sv : Services)
    (h : list Call) (query : string) (use_hybrid : bool)
    (r : EmbedResponse) (v : option Vector) (resp : RpcResponse)
    (good rest : list Row) :
  embed_content sv h "text-embedding-004" query = Returned r ->
  first_embedding_values r = Returned v ->
  rpc_execute sv (h ++ [EmbedContent "text-embedding-004" query])
    "match_documents_hybrid" (hybrid_params v query) = Returned resp ->
  data resp = Some (good ++ rest) ->
  good ++ rest <> [] ->
  Forall (fun m => has_content m = true) good ->
  Forall (fun m => score_formats m = true) good ->
  match rest with
  | [] => True
  | m :: _ => has_content m = false
  end ->
  exists parts,
    build_context_parts py_repr 1 good = Returned parts
    /\ length parts = length good
    /\ (forall (j : nat) m,
          good !! j = Some m ->
          exists part, parts !! j = Some part
                       /\ renders py_repr (1 + Z.of_nat j) m part)
    /\ query_documents py_repr query use_hybrid sv h =
         match rest with
         | [] =>
             let prompt := full_prompt (str_join (LF +:+ "---" +:+ LF) parts) query in
             (Returned
                match generate_content sv (asked h query v) "gemini-3-flash" prompt with
                | Returned response => text response
                | Raised e => Some ("Error: " +:+ exn_str e)
                end,
              asked h query v ++ [GenerateContent "gemini-3-flash" prompt])
         | m :: _ =>
             (Raised
                match format_3f (dict_get m "combined_score" (PyInt 0)) with
                | Returned _ => mkExn "KeyError" "'content'"
                | Raised e => e
                end,
              asked h query v)
         end.
Proof.
  intros He Hv Hr Hd Hne Hc Hs Hrest.
  destruct (build_context_parts_renders py_repr good 1 Hc Hs)
    as (parts & Hparts & Hlen & Hshown).
  exists parts. split; [done |]. split; [done |]. split; [done |].
  rewrite (query_documents_answered py_repr sv h query use_hybrid r v resp He Hv Hr), Hd.
  destruct rest as [| m after].
  - rewrite app_nil_r in *. destruct good as [| m0 good]; [done |].
    rewrite Hparts. apply get_chat_response_run.
  - pose proof (build_context_parts_stops py_repr good m after 1 Hc Hs Hrest) as Hstop.
    destruct (good ++ m :: after) as [| m0 rows]; [done |].
    by rewrite Hstop.
Qed.

Lemma context_loop_needs_content_witness :
  (exists parts,
     build_context_parts no_repr 1 [row_Y; row_B] = Returned parts
     /\ length parts = length [row_Y; row_B]
     /\ (forall (j : nat) m,
           [row_Y; row_B] !! j = Some m ->
           exists part, parts !! j = Some part
                        /\ renders no_repr (1 + Z.of_nat j) m part)
     /\ query_documents no_repr "Q?" true
          (answering (Some ([row_Y; row_B] ++ [])) []) [] =
          (Returned (Some "An answer."),
           asked [] "Q?" (Some [half]) ++
           [GenerateContent "gemini-3-flash"
              (full_prompt (str_join (LF +:+ "---" +:+ LF) parts) "Q?")]))
  /\ (exists parts,
        build_context_parts no_repr 1 [row_Y; row_B] = Returned parts
        /\ length parts = length [row_Y; row_B]
        /\ (forall (j : nat) m,
              [row_Y; row_B] !! j = Some m ->
              exists part, parts !! j = Some part
                           /\ renders no_repr (1 + Z.of_nat j) m part)
        /\ query_documents no_repr "Q?" true
             (answering (Some ([row_Y; row_B] ++ [row_Z; row_A])) []) [] =
             (Raised (mkExn "KeyError" "'content'"), asked [] "Q?" (Some [half]))).
Proof.
  split.
  - apply (context_loop_needs_content no_repr
             (answering (Some ([row_Y; row_B] ++ [])) []) []
             "Q?" true {| embeddings := Some [Some [half]] |} (Some [half])
             {| data := Some ([row_Y; row_B] ++ []) |}
             [row_Y; row_B] []);
      try reflexivity.
    + discriminate.
    + by repeat constructor.
    + by repeat constructor.
  - apply (context_loop_needs_content no_repr
             (answering (Some ([row_Y; row_B] ++ [row_Z; row_A])) []) []
             "Q?" true {| embeddings := Some [Some [half]] |} (Some [half])
             {| data := Some ([row_Y; row_B] ++ [row_Z; row_A]) |}
             [row_Y; row_B] [row_Z; row_A]);
      try reflexivity.
    + discriminate.
    + by repeat constructor.
    + by repeat constructor.
Defined.

(** Rows that all have their content: the loop gets through them, with
    the defaults where a field is missing, and the chat model answers. *)
Example query_documents_defaults :
  query_documents no_repr "Q?" true (answering (Some [row_Y; row_B]) []) [] =
    (Returned (Some "An answer."),
     asked [] "Q?" (Some [half]) ++
     [GenerateContent "gemini-3-flash"
        (full_prompt
           ("[Source 1 - Unknown - Page ? - Score: 0.000]" +:+ LF +:+ "Y" +:+ LF
            +:+ LF +:+ "---" +:+ LF
            +:+ "[Source 2 - Unknown - Page 4 - Score: 0.500]" +:+ LF +:+ "B" +:+ LF)
           "Q?")]).
Proof. by vm_compute. Qed.

(** The row without content, on its own, as the code meets it. *)
Example query_documents_row_without_content :
  query_documents no_repr "Q?" true (answering (Some [row_Y; row_Z]) []) [] =
    (Raised (mkExn "KeyError" "'content'"), asked [] "Q?" (Some [half])).
Proof. by vm_compute. Qed.

Example query_documents_bare_row :
  snd (query_documents no_repr "Q?" true (answering (Some [row_Y]) []) []) =
    asked [] "Q?" (Some [half]) ++
    [GenerateContent "gemini-3-flash"
       (full_prompt ("[Source 1 - Unknown - Page ? - Score: 0.000]" +:+ LF
                     +:+ "Y" +:+ LF) "Q?")].
Proof. by vm_compute. Qed.

(* ===================================================================== *)
(** * Ingestion *)
(* ===================================================================== *)

(** X1: whatever the PDF reader, the embedding service and the store
    do, the ingestion returns: what is raised inside lines 48-100 is
    caught on line 102 and printed. *)
Theorem upload_never_raises (g : Globals) (sv : Services) (h : list Call) :
  exists result, fst (upload_pdf_to_supabase g sv h) = Returned result.
Proof.
  unfold upload_pdf_to_supabase.
  destruct (_ || _); [by eexists |].
  unfold bind at 1. unfold py_path_exists at 1, call at 1.
  destruct (negb _); [by eexists |].
  unfold try_except.
  match goal with |- context [let (_, _) := ?body in _] =>
    destruct body as [[result | e] h'] end; by eexists.
Qed.

(** A falsy URL or key ends the ingestion at its first statement. *)
Lemma upload_guard g sv h :
  str_truthy (SUPABASE_URL g) = false \/ str_truthy (SUPABASE_KEY g) = false ->
  upload_pdf_to_supabase g sv h =
    (Returned (Some "Error: Supabase credentials not found in .env file."), h).
Proof.
  intros H. unfold upload_pdf_to_supabase.
  replace (negb (str_truthy (SUPABASE_URL g)) || negb (str_truthy (SUPABASE_KEY g)))
    with true; [done |].
  destruct H as [-> | ->]; [done | by rewrite orb_true_r].
Qed.

(** The import returns only with a URL and a key that are there: the
    guard of line 40 cannot fire in a function that can be called. *)
Lemma import_app_returns connect genai_client env g :
  import_app connect genai_client env = Returned g ->
  g = env
  /\ str_truthy (SUPABASE_URL g) = true
  /\ str_truthy (SUPABASE_KEY g) = true.
Proof.
  unfold import_app, create_client, and_then.
  destruct (str_truthy (SUPABASE_URL env)) eqn:Hu; [| done].
  destruct (str_truthy (SUPABASE_KEY env)) eqn:Hk; [| done]. cbn [negb].
  destruct (connect _ _); [| done]. destruct genai_client; [| done].
  intros [= <-]. done.
Qed.

(** Without the URL or without the key, the import raises on line 22 and
    [upload_pdf_to_supabase] is never entered: the ingestion ends with a
    SupabaseException, the call log as it was. *)
Lemma run_upload_without_credentials connect genai_client env sv h :
  str_truthy (SUPABASE_URL env) = false \/ str_truthy (SUPABASE_KEY env) = false ->
  exists e,
    exn_class e = "SupabaseException"
    /\ run_upload connect genai_client env sv h = (Raised e, h).
Proof.
  intros H. unfold run_upload, bind, lift, import_app, create_client, and_then.
  destruct (str_truthy (SUPABASE_URL env)); cbn [negb].
  - destruct H as [H | ->]; [done |].
    by exists (mkExn "SupabaseException" "supabase_key is required").
  - by exists (mkExn "SupabaseException" "supabase_url is required").
Qed.

(** C3: the claim fails on the code.  With SUPABASE_URL and SUPABASE_KEY
    missing from the environment, or with the key alone missing, the
    ingestion does not come back with an error string: the import of the
    module raises SupabaseException on line 22, before
    [upload_pdf_to_supabase] can be called, and no call has been made.
    The guard of line 40, had it been reached, would have returned the
    error string. *)
Theorem ingestion_without_credentials :
  run_upload connects (Returned tt) no_credentials (answering None []) [] =
    (Raised (mkExn "SupabaseException" "supabase_url is required"), [])
  /\ run_upload connects (Returned tt) no_key (answering None []) [] =
      (Raised (mkExn "SupabaseException" "supabase_key is required"), [])
  /\ upload_pdf_to_supabase no_credentials (answering None []) [] =
      (Returned (Some "Error: Supabase credentials not found in .env file."), []).
Proof. repeat split. Qed.

(** With the URL and the key in the environment the import goes through
    and the ingestion is [upload_pdf_to_supabase]. *)
Example run_upload_with_credentials (sv : Services) (h : list Call) :
  run_upload connects (Returned tt) with_credentials sv h
  = upload_pdf_to_supabase with_credentials sv h.
Proof. reflexivity. Qed.

Section OneModel.

Local Abbreviation P := (embeds_with "text-embedding-004").

Lemma logs_embed_chunks name page_no chunks : forall rows,
  logs P (embed_chunks name page_no chunks rows).
Proof.
  induction chunks as [| chunk rest IH]; intros rows; simpl; logs_auto. apply IH.
Qed.

Lemma logs_ingest_pages name pages : forall i rows,
  logs P (ingest_pages name i pages rows).
Proof.
  induction pages as [| page rest IH]; intros i rows; simpl; logs_auto;
    [apply logs_embed_chunks | apply IH].
Qed.

Lemma logs_get_chat_response prompt : logs P (get_chat_response prompt).
Proof. unfold get_chat_response. logs_auto. Qed.

Lemma logs_upload g : logs P (upload_pdf_to_supabase g).
Proof.
  unfold upload_pdf_to_supabase.
  destruct (_ || _); logs_auto.
  match goal with found : bool |- _ => destruct (negb found) end; logs_auto.
  apply logs_ingest_pages.
Qed.

Lemma logs_query_documents py_repr query use_hybrid :
  logs P (query_documents py_repr query use_hybrid).
Proof.
  unfold query_documents. logs_auto.
  match goal with resp : RpcResponse |- _ =>
    destruct (data resp) as [[| m rows] |] end; logs_auto.
Qed.

End OneModel.

(** C6: ingestion and query name the same embedding model: the constant
    of the ingestion is "text-embedding-004", every embedding call that
    [upload_pdf_to_supabase] makes carries it, and so does every
    embedding call that [query_documents] makes. *)
Theorem one_embedding_model (py_repr : PyVal -> string) (g : Globals)
    (query : string) (use_hybrid : bool) :
  EMBEDDING_MODEL = "text-embedding-004"
  /\ logs (embeds_with EMBEDDING_MODEL) (upload_pdf_to_supabase g)
  /\ logs (embeds_with EMBEDDING_MODEL) (query_documents py_repr query use_hybrid).
Proof.
  split; [done |]. split; [apply logs_upload | apply logs_query_documents].
Qed.

(* ===================================================================== *)
(** * The blend of the store *)
(* ===================================================================== *)

(** The weight that [query_documents] sends: the float written 0.7. *)
Lemma semantic_weight_sent (v : option Vector) (query : string) :
  Store.float_value (semantic_weight (hybrid_params v query))
  = (6305039478318694 # 9007199254740992)%Q.
Proof. reflexivity. Qed.

Lemma combined_score_monotone_in_similarity (w v1 v2 l : Q) :
  (0 <= w)%Q -> (v1 <= v2)%Q ->
  (Store.combined_score w v1 l <= Store.combined_score w v2 l)%Q.
Proof.
  intros Hw Hv. unfold Store.combined_score.
  apply Qplus_le_l. rewrite !(Qmult_comm w). by apply Qmult_le_compat_r.
Qed.

(** C9: with the semantic weight that [query_documents] passes (0.7),
    raising the vector similarity of a row while its lexical score stays
    the same does not lower its combined score. *)
Theorem combined_score_monotone (v : option Vector) (query : string)
    (similarity similarity' lexical : Q) :
  (similarity <= similarity')%Q ->
  (Store.combined_score
     (Store.float_value (semantic_weight (hybrid_params v query))) similarity lexical
   <= Store.combined_score
        (Store.float_value (semantic_weight (hybrid_params v query))) similarity' lexical)%Q.
Proof.
  intros H. apply combined_score_monotone_in_similarity; [| done].
  rewrite semantic_weight_sent. discriminate.
Qed.

Lemma combined_score_monotone_witness :
  (Store.combined_score
     (Store.float_value (semantic_weight (hybrid_params None "Q?"))) (1 # 2) (1 # 4)
   <= Store.combined_score
        (Store.float_value (semantic_weight (hybrid_params None "Q?"))) (3 # 4) (1 # 4))%Q.
Proof.
  apply (combined_score_monotone None "Q?" (1 # 2) (3 # 4) (1 # 4)).
  discriminate.
Defined.

(* ===================================================================== *)
(** * The chunker: nothing is lost, nothing is too long *)
(* ===================================================================== *)

Section ChunkerFacts.

Import Chunker.
Local Open Scope nat_scope.

Lemma cut_concat sep : forall s skip cur,
  concat (cut sep skip cur s) = rev cur ++ s.
Proof.
  induction s as [| c t IH]; intros skip cur; simpl.
  - by rewrite !app_nil_r.
  - destruct skip as [| k].
    + destruct (is_prefix sep (c :: t)); simpl; rewrite IH; simpl;
        by rewrite <- ?app_assoc.
    + rewrite IH. simpl. by rewrite <- app_assoc.
Qed.

Lemma concat_filter_nonempty (l : list text) :
  concat (List.filter nonempty l) = concat l.
Proof.
  induction l as [| f l IH]; [done |].
  destruct f as [| c f]; simpl; [exact IH | by rewrite IH].
Qed.

Lemma concat_singletons (s : text) : concat (map (fun c => [c]) s) = s.
Proof. induction s as [| c s IH]; simpl; [done | by rewrite IH]. Qed.

Lemma concat_flat_map (g : text -> list text) (l : list text) :
  (forall p, concat (g p) = p) -> concat (flat_map g l) = concat l.
Proof.
  intros Hg. induction l as [| p l IH]; simpl; [done |].
  by rewrite concat_app, Hg, IH.
Qed.

(** The fragments, put end to end, are the text. *)
Lemma fragments_concat max_size seps : forall s,
  concat (fragments max_size seps s) = s.
Proof.
  induction seps as [| sep rest IH]; intros s; simpl.
  - destruct s; simpl; [done | by rewrite app_nil_r].
  - destruct sep as [| a sep]; [apply concat_singletons |].
    destruct (occurs (a :: sep) s); [| apply IH].
    rewrite concat_flat_map.
    + rewrite concat_filter_nonempty. apply (cut_concat (a :: sep) s 0 []).
    + intros p. destruct (length p <=? max_size); [apply app_nil_r | apply IH].
Qed.

Lemma Forall_flat_map_intro {X Y} (P : Y -> Prop) (g : X -> list Y) (l : list X) :
  (forall x, Forall P (g x)) -> Forall P (flat_map g l).
Proof.
  intros Hg. induction l as [| x l IH]; simpl; [constructor | by apply Forall_app].
Qed.

(** With the character boundary among the separators, no fragment is
    longer than a chunk may be. *)
Lemma fragments_bounded max_size seps : forall s,
  1 <= max_size -> [] ∈ seps ->
  Forall (fun f => length f <= max_size) (fragments max_size seps s).
Proof.
  induction seps as [| sep rest IH]; intros s Hm Hin.
  - by apply elem_of_nil in Hin.
  - simpl. destruct sep as [| a sep].
    + apply Forall_forall. intros f Hf.
      apply list_elem_of_fmap in Hf as (c & -> & _). simpl. lia.
    + apply elem_of_cons in Hin as [Heq | Hin]; [done |].
      destruct (occurs (a :: sep) s); [| by apply IH].
      apply Forall_flat_map_intro. intros p.
      destruct (length p <=? max_size) eqn:E; [| by apply IH].
      apply Nat.leb_le in E. by repeat constructor.
Qed.

Section MergeFacts.

Context {A : Type} (size : A -> nat).
Variables (max_size overlap : nat).

Lemma total_app (w1 w2 : list A) : total size (w1 ++ w2) = total size w1 + total size w2.
Proof. unfold total. by rewrite map_app, list_sum_app. Qed.

Lemma total_singleton (f : A) : total size [f] = size f.
Proof. unfold total. simpl. lia. Qed.

(** What is kept when backing up is the tail of the window. *)
Lemma back_up_suffix next : forall win,
  back_up size max_size overlap next win `suffix_of` win.
Proof.
  induction win as [| f win IH]; simpl; [done |].
  destruct (_ || _); [by apply suffix_cons_r | done].
Qed.

(** It fits in the overlap. *)
Lemma back_up_overlap next : forall win,
  total size (back_up size max_size overlap next win) <= overlap.
Proof.
  induction win as [| f win IH]; simpl; [unfold total; simpl; lia |].
  destruct (_ || _) eqn:E; [done |].
  apply orb_false_elim in E as [E _]. by apply Nat.ltb_ge in E.
Qed.

(** It leaves room for the fragment that comes next. *)
Lemma back_up_room next : forall win,
  back_up size max_size overlap next win = []
  \/ total size (back_up size max_size overlap next win) + next <= max_size.
Proof.
  induction win as [| f win IH]; simpl; [by left |].
  destruct (_ || _) eqn:E; [done |].
  apply orb_false_elim in E as [_ E]. apply Nat.ltb_ge in E. by right.
Qed.

(** No window outgrows [max_size]. *)
Lemma merge_bounded : forall frags k win,
  Forall (fun f => size f <= max_size) frags ->
  total size win <= max_size ->
  Forall (fun kw => total size (snd kw) <= max_size)
         (merge size max_size overlap k win frags).
Proof.
  induction frags as [| f rest IH]; intros k win Hf Hw; simpl.
  - destruct win; by repeat constructor.
  - inversion Hf as [| ? ? Hf1 Hf2]; subst.
    destruct (max_size <? total size win + size f) eqn:E.
    + destruct win as [| a win].
      * apply IH; [done |]. by rewrite total_singleton.
      * constructor; [done |]. apply IH; [done |].
        rewrite total_app, total_singleton.
        destruct (back_up_room (size f) (a :: win)) as [-> | H]; [done | lia].
    + apply Nat.ltb_ge in E. apply IH; [done |].
      rewrite total_app, total_singleton. lia.
Qed.

(** No shared span outgrows [overlap]. *)
Lemma merge_overlaps : forall frags k win,
  k <= overlap ->
  Forall (fun kw => fst kw <= overlap) (merge size max_size overlap k win frags).
Proof.
  induction frags as [| f rest IH]; intros k win Hk; simpl.
  - destruct win; by repeat constructor.
  - destruct (max_size <? total size win + size f).
    + destruct win as [| a win]; [apply IH; lia |].
      constructor; [done |]. apply IH, back_up_overlap.
    + by apply IH.
Qed.

End MergeFacts.

Abbreviation chunks_of max_size overlap k win frags :=
  (map (fun kw : nat * list text => (fst kw, concat (snd kw)))
     (merge (@length ascii) max_size overlap k win frags)).

Lemma total_length (win : list text) : total (@length ascii) win = length (concat win).
Proof.
  unfold total. induction win as [| f win IH]; simpl; [done |].
  by rewrite length_app, IH.
Qed.

(** Dropping the shared spans gives back what the window still owed and
    all the fragments to come. *)
Lemma merge_reassemble max_size overlap : forall frags k win,
  k <= length (concat win) ->
  reassemble (chunks_of max_size overlap k win frags)
  = drop k (concat win) ++ concat frags.
Proof.
  unfold reassemble.
  induction frags as [| f rest IH]; intros k win Hk; simpl.
  - destruct win as [| a win]; simpl in *.
    + by destruct k.
    + by rewrite !app_nil_r.
  - destruct (max_size <? total (@length ascii) win + length f).
    + destruct win as [| a win].
      * rewrite IH; simpl; [| lia]. simpl in Hk. replace k with 0 by lia.
        by rewrite app_nil_r.
      * cbn [map concat fst snd]. rewrite IH.
        -- rewrite total_length, concat_app, drop_app_length.
           simpl. by rewrite app_nil_r.
        -- rewrite total_length, concat_app, length_app. lia.
    + rewrite IH.
      * rewrite concat_app. simpl. rewrite app_nil_r, drop_app_le by done.
        by rewrite <- app_assoc.
      * rewrite concat_app, length_app. lia.
Qed.

(** The spans dropped are spans shared. *)
Lemma merge_shared max_size overlap : forall frags k win prev,
  k <= length (concat win) ->
  take k (concat win) `suffix_of` prev ->
  shared_spans prev (chunks_of max_size overlap k win frags).
Proof.
  induction frags as [| f rest IH]; intros k win prev Hk Hs; simpl.
  - destruct win; simpl; [done | by repeat split].
  - destruct (max_size <? total (@length ascii) win + length f).
    + destruct win as [| a win].
      * apply IH; [lia | apply suffix_nil].
      * cbn [map shared_spans fst snd]. split; [done |]. split; [done |].
        apply IH.
        -- rewrite total_length, concat_app, length_app. lia.
        -- rewrite total_length, concat_app, take_app_length.
           destruct (back_up_suffix (@length ascii) max_size overlap (length f) (a :: win))
             as [dropped Hd].
           exists (concat dropped). by rewrite <- concat_app, <- Hd.
    + apply IH.
      * rewrite concat_app, length_app. lia.
      * rewrite concat_app, take_app_le; done.
Qed.

Lemma length_string_of_list_ascii (l : text) :
  String.length (string_of_list_ascii l) = length l.
Proof. induction l as [| c l IH]; simpl; [done | by rewrite IH]. Qed.

Lemma length_list_ascii_of_string (s : string) :
  length (list_ascii_of_string s) = String.length s.
Proof. induction s as [| c s IH]; simpl; [done | by rewrite IH]. Qed.

(** Without the shared spans, the chunks are the text. *)
Lemma split_overlaps_reassemble ts (s : text) :
  reassemble (split_overlaps ts s) = s.
Proof.
  unfold split_overlaps. rewrite merge_reassemble; [| done].
  apply fragments_concat.
Qed.

(** No chunk is longer than [chunk_size], when the character boundary is
    among the separators. *)
Lemma split_overlaps_bounded ts (s : text) :
  1 <= chunk_size ts -> "" ∈ separators ts ->
  Forall (fun kc => length (snd kc) <= chunk_size ts) (split_overlaps ts s).
Proof.
  intros Hm Hs. unfold split_overlaps. apply Forall_fmap.
  eapply Forall_impl.
  - apply (merge_bounded (@length ascii) (chunk_size ts) (chunk_overlap ts)).
    + apply fragments_bounded; [done |].
      by apply (list_elem_of_fmap_2 list_ascii_of_string) in Hs.
    + unfold total. simpl. lia.
  - intros [k win] H. simpl in *. by rewrite <- total_length.
Qed.

Lemma split_overlaps_overlap ts (s : text) :
  Forall (fun kc => fst kc <= chunk_overlap ts) (split_overlaps ts s).
Proof.
  unfold split_overlaps. apply Forall_fmap.
  apply (merge_overlaps (@length ascii)). lia.
Qed.

Lemma split_overlaps_shared ts (s : text) :
  shared_spans [] (split_overlaps ts s).
Proof. unfold split_overlaps. by apply merge_shared. Qed.

End ChunkerFacts.

(** The edge cases of spec 4.2: empty input gives no chunk, and an
    input that fits in a chunk is its own and only chunk. *)
Section ChunkerEdgeCases.

Import Chunker.
Local Open Scope nat_scope.

Lemma fragments_empty max_size seps : fragments max_size seps [] = [].
Proof.
  induction seps as [| sep rest IH]; [done |].
  destruct sep; [done | exact IH].
Qed.

Lemma split_text_empty ts : split_text ts "" = [].
Proof.
  unfold split_text, split_overlaps. cbn [list_ascii_of_string].
  by rewrite fragments_empty.
Qed.

Lemma merge_fits {A} (size : A -> nat) max_size overlap : forall frags k win,
  total size win + total size frags <= max_size ->
  merge size max_size overlap k win frags
  = match win ++ frags with [] => [] | _ :: _ => [(k, win ++ frags)] end.
Proof.
  induction frags as [| f rest IH]; intros k win H.
  - rewrite app_nil_r. by destruct win.
  - cbn [merge].
    change (f :: rest) with ([f] ++ rest) in H. rewrite total_app, total_singleton in H.
    replace (max_size <? total size win + size f) with false
      by (symmetry; apply Nat.ltb_ge; lia).
    rewrite IH; [| rewrite total_app, total_singleton; lia].
    by rewrite <- app_assoc.
Qed.

Lemma split_text_short ts (s : string) :
  s <> "" -> String.length s <= chunk_size ts -> split_text ts s = [s].
Proof.
  intros Hne Hlen. unfold split_text, split_overlaps.
  set (l := list_ascii_of_string s).
  set (frags := fragments _ _ l).
  assert (Hc : concat frags = l) by apply fragments_concat.
  rewrite merge_fits.
  - cbn [app]. destruct frags as [| f frags].
    + simpl in Hc. destruct s; [done | discriminate].
    + cbn [map fst snd]. rewrite Hc. unfold l.
      by rewrite string_of_list_ascii_of_string.
  - rewrite !total_length, Hc. unfold l. simpl.
    rewrite length_list_ascii_of_string. lia.
Qed.

End ChunkerEdgeCases.

(** C8: for every input string, with chunk_size 1000, chunk_overlap 150
    and the separators paragraph break, line break, space and character
    boundary: the chunks, each without the span it shares with the chunk
    before it, put end to end are the input; no chunk is longer than
    1000; and the span removed from a chunk is at most 150 long and is
    the end of the chunk before it. *)
Theorem split_text_reassembles (s : string) :
  let cs := Chunker.split_overlaps text_splitter (list_ascii_of_string s) in
  Chunker.split_text text_splitter s = map (fun kc => string_of_list_ascii (snd kc)) cs
  /\ string_of_list_ascii (Chunker.reassemble cs) = s
  /\ Forall (fun c => (String.length c <= 1000)%nat) (Chunker.split_text text_splitter s)
  /\ Forall (fun kc => (fst kc <= 150)%nat) cs
  /\ Chunker.shared_spans [] cs.
Proof.
  intros cs. split; [done |]. split; [| split; [| split]].
  - subst cs. rewrite split_overlaps_reassemble. apply string_of_list_ascii_of_string.
  - unfold Chunker.split_text. apply Forall_fmap.
    eapply Forall_impl; [apply (split_overlaps_bounded text_splitter) |].
    + simpl. lia.
    + simpl. set_solver.
    + intros kc H. simpl in *. by rewrite length_string_of_list_ascii.
  - apply (split_overlaps_overlap text_splitter).
  - apply split_overlaps_shared.
Qed.

(* ===================================================================== *)
(** * The 1500-character page *)
(* ===================================================================== *)

(** C5, as stated, fails: a page of 1500 characters made of three words
    of 299, 900 and 299 letters, a space between them, gives three
    chunks, and three rows. *)
Lemma three_words_three_chunks :
  String.length three_words = 1500%nat
  /\ length (Chunker.split_text text_splitter three_words) = 3%nat
  /\ map page_number
       (inserted_rows
          (snd (upload_pdf_to_supabase with_credentials
                  (answering None [page_of three_words; page_of ""]) [])))
     = [1; 1; 1].
Proof. by vm_compute. Qed.

Section MergeNatural.

Import Chunker.
Local Open Scope nat_scope.

(** The merge looks at the sizes of the fragments and at nothing else. *)
Context {A B : Type} (g : B -> A) (size : A -> nat) (size' : B -> nat).
Hypothesis size_g : forall b, size (g b) = size' b.
Variables (max_size overlap : nat).

Lemma total_map (w : list B) : total size (map g w) = total size' w.
Proof.
  unfold total. induction w as [| b w IH]; simpl; [done |].
  by rewrite size_g, IH.
Qed.

Lemma back_up_map next : forall w,
  back_up size max_size overlap next (map g w)
  = map g (back_up size' max_size overlap next w).
Proof.
  induction w as [| b w IH]; [done |].
  cbn [map back_up].
  change (g b :: map g w) with (map g (b :: w)). rewrite total_map.
  destruct (_ || _); [exact IH | done].
Qed.

Lemma merge_map : forall frags k win,
  merge size max_size overlap k (map g win) (map g frags)
  = map (fun kw => (fst kw, map g (snd kw)))
        (merge size' max_size overlap k win frags).
Proof.
  induction frags as [| f rest IH]; intros k win.
  - by destruct win.
  - cbn [map merge]. rewrite total_map, size_g.
    destruct (max_size <? total size' win + size' f).
    + destruct win as [| b win].
      * apply (IH 0 [f]).
      * cbn [map]. f_equal.
        change (g b :: map g win) with (map g (b :: win)).
        rewrite back_up_map, total_map.
        change [g f] with (map g [f]). rewrite <- map_app. apply IH.
    + change [g f] with (map g [f]). rewrite <- map_app. apply IH.
Qed.

End MergeNatural.

Section PlainPage.

Import Chunker.
Local Open Scope nat_scope.

Lemma occurs_absent a sep : forall s,
  Forall (fun c => Ascii.eqb a c = false) s -> occurs (a :: sep) s = false.
Proof.
  induction s as [| c s IH]; intros H; [done |].
  inversion H as [| ? ? Hc Hs]; subst.
  cbn [occurs is_prefix]. rewrite Hc. by apply IH.
Qed.

Lemma plain_no_line_break (s : text) :
  forallb plain_char s = true ->
  Forall (fun c => Ascii.eqb (ascii_of_nat 10) c = false) s.
Proof.
  intros H. apply Forall_forall. intros c Hc.
  apply list_elem_of_In in Hc. rewrite forallb_forall in H. specialize (H c Hc).
  unfold plain_char in H. apply andb_prop in H as [H _].
  rewrite Ascii.eqb_sym. by destruct (Ascii.eqb c _).
Qed.

Lemma plain_no_space (s : text) :
  forallb plain_char s = true ->
  Forall (fun c => Ascii.eqb " " c = false) s.
Proof.
  intros H. apply Forall_forall. intros c Hc.
  apply list_elem_of_In in Hc. rewrite forallb_forall in H. specialize (H c Hc).
  unfold plain_char in H. apply andb_prop in H as [_ H].
  rewrite Ascii.eqb_sym. by destruct (Ascii.eqb c _).
Qed.

(** A plain text is cut at every character boundary. *)
Lemma fragments_plain (s : text) :
  forallb plain_char s = true ->
  fragments (chunk_size text_splitter)
    (map list_ascii_of_string (separators text_splitter)) s
  = map (fun c => [c]) s.
Proof.
  intros H. cbn [text_splitter chunk_size separators map].
  change (list_ascii_of_string (LF +:+ LF)) with [ascii_of_nat 10; ascii_of_nat 10].
  change (list_ascii_of_string LF) with [ascii_of_nat 10].
  change (list_ascii_of_string " ") with [" "%char].
  change (list_ascii_of_string "") with (@nil ascii).
  cbn [fragments].
  rewrite !occurs_absent; auto using plain_no_line_break, plain_no_space.
Qed.

(** A list is the list of its items, by position. *)
Lemma list_by_position {X} (d : X) : forall l : list X,
  l = map (fun i => default d (l !! i)) (seq 0 (length l)).
Proof.
  induction l as [| x l IH]; [done |].
  cbn [length seq map]. f_equal.
  rewrite <- seq_shift, map_map. exact IH.
Qed.

Lemma concat_map_singleton {X Y} (f : X -> Y) (l : list X) :
  concat (map (fun i => [f i]) l) = map f l.
Proof. induction l as [| x l IH]; simpl; [done | by rewrite IH]. Qed.

(** The two chunks of a plain page of 1500 characters. *)
Lemma split_overlaps_plain_1500 (s : text) :
  length s = 1500 -> forallb plain_char s = true ->
  split_overlaps text_splitter s = [(0, take 1000 s); (150, drop 850 s)].
Proof.
  intros Hlen Hplain. unfold split_overlaps. rewrite (fragments_plain s Hplain).
  set (f := fun i => default " "%char (s !! i)).
  assert (Hs : s = map f (seq 0 1500)).
  { rewrite <- Hlen. apply list_by_position. }
  rewrite Hs at 1. rewrite map_map.
  change (@nil text) with (map (fun i => [f i]) []).
  rewrite (merge_map (fun i => [f i]) (@length ascii) (fun _ => 1)); [| done].
  replace (merge (fun _ : nat => 1) (chunk_size text_splitter)
             (chunk_overlap text_splitter) 0 [] (seq 0 1500))
    with [(0, take 1000 (seq 0 1500)); (150, drop 850 (seq 0 1500))]
    by (by vm_compute).
  cbn [map fst snd]. rewrite !concat_map_singleton.
  change (map f (take 1000 (seq 0 1500))) with (f <$> take 1000 (seq 0 1500)).
  change (map f (drop 850 (seq 0 1500))) with (f <$> drop 850 (seq 0 1500)).
  rewrite fmap_take, fmap_drop.
  change (f <$> seq 0 1500) with (map f (seq 0 1500)). by rewrite <- Hs.
Qed.

Lemma split_text_plain_1500 (s : string) :
  String.length s = 1500 -> plain s = true ->
  split_text text_splitter s = [str_slice 0 1000 s; str_slice 850 1500 s].
Proof.
  intros Hlen Hplain. unfold split_text, str_slice.
  rewrite <- length_list_ascii_of_string in Hlen.
  rewrite (split_overlaps_plain_1500 _ Hlen Hplain).
  cbn [map snd]. rewrite (take_ge (drop 850 _)); [done |].
  rewrite length_drop. lia.
Qed.

End PlainPage.

Section TwoPages.

Variables (g : Globals) (sv : Services).

Lemma embed_chunks_two name page_no c1 c2 rows hist :
  embedding_up sv ->
  exists v1 v2,
    embed_chunks name page_no [c1; c2] rows sv hist =
      (Returned (rows ++ [row_of name page_no c1 v1; row_of name page_no c2 v2]),
       hist ++ [EmbedContent EMBEDDING_MODEL c1; EmbedContent EMBEDDING_MODEL c2]).
Proof.
  intros Hup.
  destruct (Hup hist c1) as (r1 & v1 & E1 & V1).
  destruct (Hup (hist ++ [EmbedContent EMBEDDING_MODEL c1]) c2) as (r2 & v2 & E2 & V2).
  exists v1, v2.
  unfold embed_chunks, bind, py_embed_content, call, lift, ret.
  by rewrite E1, V1, E2, V2, <- !app_assoc.
Qed.

(** Two pages: two chunks, then none. *)
Lemma ingest_two_pages (name : string) (hist : list Call)
    (page1 : string) (page2 : option string) c1 c2 :
  embedding_up sv ->
  Chunker.split_text text_splitter page1 = [c1; c2] ->
  or_empty page2 = "" ->
  exists v1 v2,
    ingest_pages name 0 [page_of page1; {| extract_text := Returned page2 |}] [] sv hist =
      (Returned [row_of name 1 c1 v1; row_of name 1 c2 v2],
       hist ++ [EmbedContent EMBEDDING_MODEL c1; EmbedContent EMBEDDING_MODEL c2]).
Proof.
  intros Hup Hsplit Hempty.
  destruct (embed_chunks_two name 1 c1 c2 [] hist Hup) as (v1 & v2 & Hrun).
  exists v1, v2.
  cbn [ingest_pages].
  rewrite (bind_returned _ _ sv hist (Some page1) hist) by done.
  change (or_empty (Some page1)) with page1. rewrite Hsplit.
  change (0 + 1)%Z with 1%Z.
  rewrite (bind_returned _ _ _ _ _ _ Hrun).
  rewrite (bind_returned _ _ sv _ page2 _) by done.
  rewrite Hempty.
  change (Chunker.split_text text_splitter "") with (@nil string).
  reflexivity.
Qed.

End TwoPages.


Section ShortPieces.

Import Chunker.
Local Open Scope nat_scope.

Lemma flat_map_whole {X} (g : X -> list X) (l : list X) :
  Forall (fun p => g p = [p]) l -> flat_map g l = l.
Proof.
  induction l as [| p l IH]; intros H; [done |].
  inversion H as [| ? ? Hp Hl]; subst. simpl. by rewrite Hp, IH.
Qed.

(** Pieces that fit in a chunk are not cut again: they are the
    fragments. *)
Lemma fragments_pieces max_size seps : forall s,
  Forall (fun p => length p <= max_size) (pieces seps s) ->
  fragments max_size seps s = pieces seps s.
Proof.
  induction seps as [| sep rest IH]; intros s H; [done |].
  cbn [fragments pieces] in *. destruct sep as [| a sep]; [done |].
  destruct (occurs (a :: sep) s); [| by apply IH].
  apply flat_map_whole. eapply Forall_impl; [exact H |].
  intros p Hp. cbn beta. apply Nat.leb_le in Hp. by rewrite Hp.
Qed.

(** Fragments of [len] units in all, none of them larger than [bound]:
    the first window is emitted with more than [max_size - bound] units,
    at most [overlap] of them are kept, and what is left fits in a second
    window. *)
Lemma merge_two {A} (size : A -> nat) max_size overlap bound len :
  bound + overlap + len <= 2 * max_size + 1 -> max_size < len ->
  forall frags k win,
    Forall (fun f => size f <= bound) frags ->
    total size win + total size frags = len ->
    total size win <= max_size ->
    exists w1 k2 w2,
      merge size max_size overlap k win frags = [(k, w1); (k2, w2)].
Proof.
  intros Hb Hlen. induction frags as [| f rest IH]; intros k win Hf Hsum Hwin.
  - change (total size []) with 0 in Hsum. lia.
  - apply Forall_cons in Hf as [Hf1 Hf2].
    change (f :: rest) with ([f] ++ rest) in Hsum.
    rewrite total_app, total_singleton in Hsum. cbn [merge].
    destruct (max_size <? total size win + size f) eqn:E.
    + apply Nat.ltb_lt in E. destruct win as [| a win].
      * change (total size []) with 0 in E. lia.
      * cbv zeta.
        pose proof (back_up_overlap size max_size overlap (size f) (a :: win)) as Hk.
        set (kept := back_up size max_size overlap (size f) (a :: win)) in *.
        exists (a :: win), (total size kept), ((kept ++ [f]) ++ rest).
        f_equal. rewrite merge_fits.
        -- by destruct kept.
        -- rewrite total_app, total_singleton. lia.
    + apply Nat.ltb_ge in E.
      apply IH; [done | |]; rewrite total_app, total_singleton; lia.
Qed.

Lemma longest_bound (l : list string) n :
  longest l <= n -> Forall (fun p => String.length p <= n) l.
Proof.
  induction l as [| p l IH]; simpl; intros H; constructor; [lia | apply IH; lia].
Qed.

(** A page of 1500 characters whose pieces are at most 351 long gives
    two chunks. *)
Lemma split_text_short_pieces (s : string) :
  String.length s = 1500 -> longest (page_pieces s) <= 351 ->
  exists c1 c2, split_text text_splitter s = [c1; c2].
Proof.
  intros Hlen Hlong. apply longest_bound in Hlong. unfold page_pieces in Hlong.
  apply List.Forall_map in Hlong.
  unfold split_text, split_overlaps.
  set (l := list_ascii_of_string s) in *.
  set (seps := map list_ascii_of_string (separators text_splitter)) in *.
  assert (Hp : Forall (fun p => length p <= 351) (pieces seps l)).
  { eapply Forall_impl; [exact Hlong |]. intros p Hp. cbn beta in Hp.
    by rewrite length_string_of_list_ascii in Hp. }
  assert (Hfr : fragments (chunk_size text_splitter) seps l = pieces seps l).
  { apply fragments_pieces. eapply Forall_impl; [exact Hp |].
    intros p H. cbn beta in *. simpl. lia. }
  rewrite Hfr.
  destruct (merge_two (@length ascii) (chunk_size text_splitter)
              (chunk_overlap text_splitter) 351 1500) with (frags := pieces seps l)
              (k := 0) (win := @nil text) as (w1 & k2 & w2 & ->).
  - simpl. lia.
  - simpl. lia.
  - exact Hp.
  - change (total (@length ascii) []) with 0.
    rewrite total_length, <- Hfr, fragments_concat. unfold l.
    by rewrite length_list_ascii_of_string.
  - change (total (@length ascii) []) with 0. lia.
  - by eexists _, _.
Qed.

End ShortPieces.

(** Two chunks for the first page and nothing on the second: what the
    ingestion does. *)
Lemma upload_two_chunks (g : Globals) (sv : Services) (h : list Call)
    (page1 : string) (page2 : option string) (c1 c2 : string) :
  str_truthy (SUPABASE_URL g) = true ->
  str_truthy (SUPABASE_KEY g) = true ->
  path_exists sv h (PDF_PATH g) = true ->
  pdf_reader sv (h ++ [PathExists (PDF_PATH g)]) (PDF_PATH g)
    = Returned [page_of page1; {| extract_text := Returned page2 |}] ->
  embedding_up sv ->
  Chunker.split_text text_splitter page1 = [c1; c2] ->
  or_empty page2 = "" ->
  let name := basename (PDF_PATH g) in
  exists v1 v2 last_line,
    upload_pdf_to_supabase g sv h =
      (Returned None,
       h ++ [PathExists (PDF_PATH g);
             PdfReaderOpen (PDF_PATH g);
             Print ("Processing '" +:+ name +:+ "' with 2 pages...");
             EmbedContent EMBEDDING_MODEL c1;
             EmbedContent EMBEDDING_MODEL c2;
             Print "Extracted 2 pages. Uploading to Supabase...";
             Print "Uploading 2 total chunks to Supabase...";
             InsertExecute TABLE_NAME [row_of name 1 c1 v1; row_of name 1 c2 v2];
             Print last_line]).
Proof.
  intros Hurl Hkey Hpath Hpdf Hup Hsplit Hempty name.
  set (p := PDF_PATH g) in *.
  set (h1 := h ++ [PathExists p; PdfReaderOpen p;
                   Print ("Processing '" +:+ name +:+ "' with 2 pages...")]).
  destruct (ingest_two_pages sv name h1 page1 page2 c1 c2 Hup Hsplit Hempty) as (v1 & v2 & Hrun).
  exists v1, v2.
  set (rows := [row_of name 1 c1 v1; row_of name 1 c2 v2]) in *.
  set (h2 := h1 ++ [EmbedContent EMBEDDING_MODEL c1; EmbedContent EMBEDDING_MODEL c2;
                    Print "Extracted 2 pages. Uploading to Supabase...";
                    Print "Uploading 2 total chunks to Supabase..."]).
  exists (match insert_execute sv h2 TABLE_NAME rows with
          | Returned _ => "Success! Data uploaded."
          | Raised e => "An error occurred: " +:+ exn_str e
          end).
  unfold upload_pdf_to_supabase. rewrite Hurl, Hkey. cbn [negb orb]. fold p. fold name.
  rewrite (bind_returned _ _ sv h true (h ++ [PathExists p]))
    by (unfold py_path_exists; by rewrite call_run, Hpath).
  cbn [negb]. unfold try_except.
  set (pages := [page_of page1; {| extract_text := Returned page2 |}]) in *.
  rewrite (bind_returned _ _ sv (h ++ [PathExists p]) pages
             ((h ++ [PathExists p]) ++ [PdfReaderOpen p]))
    by (unfold py_pdf_reader; by rewrite call_run, Hpdf).
  rewrite (bind_returned _ _ sv _ tt h1)
    by (unfold py_print, h1; by rewrite call_run, <- !app_assoc).
  rewrite (bind_returned _ _ _ _ _ _ Hrun).
  unfold bind, py_print, py_insert, call, ret. fold rows.
  match goal with
  | |- context [insert_execute sv ?l _ _] =>
      replace l with h2 by (unfold h2; by rewrite <- !app_assoc)
  end.
  destruct (insert_execute sv h2 TABLE_NAME rows);
    unfold h2, h1; by rewrite <- !app_assoc.
Qed.

(** C5, amended: a two-page document whose first page extracts to 1500
    characters and whose second page extracts to nothing.  The first
    page, cut at the first of paragraph break, line break and space that
    occurs in it (at every character when none does), gives pieces of at
    most 351 characters, separator included, and no chunk of it is white
    space only.  Then the chunker gives exactly two chunks for the first
    page and none for the second; the ingestion embeds those two chunks,
    hands two rows to the store, both of page 1, and returns without
    raising. *)
Theorem short_pieces_two_chunks (g : Globals) (sv : Services) (h : list Call)
    (page1 : string) (page2 : option string) :
  str_truthy (SUPABASE_URL g) = true ->
  str_truthy (SUPABASE_KEY g) = true ->
  path_exists sv h (PDF_PATH g) = true ->
  pdf_reader sv (h ++ [PathExists (PDF_PATH g)]) (PDF_PATH g)
    = Returned [page_of page1; {| extract_text := Returned page2 |}] ->
  embedding_up sv ->
  String.length page1 = 1500%nat ->
  (longest (page_pieces page1) <= 351)%nat ->
  existsb blank (Chunker.split_text text_splitter page1) = false ->
  or_empty page2 = "" ->
  let name := basename (PDF_PATH g) in
  exists c1 c2,
    Chunker.split_text text_splitter page1 = [c1; c2]
    /\ Chunker.split_text text_splitter (or_empty page2) = []
    /\ exists v1 v2 last_line,
         upload_pdf_to_supabase g sv h =
           (Returned None,
            h ++ [PathExists (PDF_PATH g);
                  PdfReaderOpen (PDF_PATH g);
                  Print ("Processing '" +:+ name +:+ "' with 2 pages...");
                  EmbedContent EMBEDDING_MODEL c1;
                  EmbedContent EMBEDDING_MODEL c2;
                  Print "Extracted 2 pages. Uploading to Supabase...";
                  Print "Uploading 2 total chunks to Supabase...";
                  InsertExecute TABLE_NAME [row_of name 1 c1 v1; row_of name 1 c2 v2];
                  Print last_line]).
Proof.
  intros Hurl Hkey Hpath Hpdf Hup Hlen Hlong _ Hempty name.
  destruct (split_text_short_pieces page1 Hlen Hlong) as (c1 & c2 & Hsplit).
  exists c1, c2. split; [exact Hsplit |]. split; [by rewrite Hempty |].
  exact (upload_two_chunks g sv h page1 page2 c1 c2 Hurl Hkey Hpath Hpdf Hup Hsplit Hempty).
Qed.

Lemma short_pieces_two_chunks_witness :
  let name := basename (PDF_PATH with_credentials) in
  exists c1 c2,
    Chunker.split_text text_splitter prose = [c1; c2]
    /\ Chunker.split_text text_splitter (or_empty (Some "")) = []
    /\ exists v1 v2 last_line,
         upload_pdf_to_supabase with_credentials
           (answering None [page_of prose; page_of ""]) [] =
           (Returned None,
            [] ++ [PathExists (PDF_PATH with_credentials);
                   PdfReaderOpen (PDF_PATH with_credentials);
                   Print ("Processing '" +:+ name +:+ "' with 2 pages...");
                   EmbedContent EMBEDDING_MODEL c1;
                   EmbedContent EMBEDDING_MODEL c2;
                   Print "Extracted 2 pages. Uploading to Supabase...";
                   Print "Uploading 2 total chunks to Supabase...";
                   InsertExecute TABLE_NAME [row_of name 1 c1 v1; row_of name 1 c2 v2];
                   Print last_line]).
Proof.
  apply (short_pieces_two_chunks with_credentials
           (answering None [page_of prose; page_of ""]) [] prose (Some ""));
    try reflexivity.
  - intros hist contents. by eexists _, _.
  - vm_compute. lia.
Defined.

(** The prose page: its longest piece is a word and the space before
    it, and its two chunks hold 995 and 655 characters. *)
Example prose_two_chunks :
  String.length prose = 1500%nat
  /\ longest (page_pieces prose) = 6%nat
  /\ map String.length (Chunker.split_text text_splitter prose) = [995; 655]%nat.
Proof. by vm_compute. Qed.

(** The page without space or line break: its pieces are its characters,
    and its two chunks are its first 1000 and its last 650 characters. *)
Example one_word_two_chunks :
  longest (page_pieces one_word) = 1%nat
  /\ Chunker.split_text text_splitter one_word
     = [str_slice 0 1000 one_word; str_slice 850 1500 one_word].
Proof. split; [by vm_compute | by apply split_text_plain_1500]. Qed.

(** The bound on the pieces cannot be raised: with a piece of 352
    characters a page of 1500 characters can give three chunks. *)
Example six_words_three_chunks :
  String.length six_words = 1500%nat
  /\ longest (page_pieces six_words) = 352%nat
  /\ length (Chunker.split_text text_splitter six_words) = 3%nat.
Proof. by vm_compute. Qed.

(** A page of white space only has short pieces and blank chunks. *)
Example blank_page :
  longest (page_pieces (chars 1500 (ascii_of_nat 9))) = 1%nat
  /\ existsb blank (Chunker.split_text text_splitter (chars 1500 (ascii_of_nat 9))) = true.
Proof. by vm_compute. Qed.

(* ===================================================================== *)
(** * Ingestion: what reaches the store *)
(* ===================================================================== *)

Lemma str_app_assoc (a b c : string) : (a +:+ b) +:+ c = a +:+ b +:+ c.
Proof.
  induction a as [| x a IH]; [done |].
  change (String x ((a +:+ b) +:+ c) = String x (a +:+ b +:+ c)). by rewrite IH.
Qed.

Lemma str_app_nil_r (a : string) : a +:+ "" = a.
Proof.
  induction a as [| x a IH]; [done |].
  change (String x (a +:+ "") = String x a). by rewrite IH.
Qed.

Lemma ends_with_slash_app (a : string) (c : ascii) (b : string) :
  ends_with_slash (a +:+ String c b) = ends_with_slash (String c b).
Proof.
  induction a as [| x a IH]; [done |].
  change (ends_with_slash (String x (a +:+ String c b)) = ends_with_slash (String c b)).
  rewrite <- IH. cbn [ends_with_slash].
  by destruct (a +:+ String c b) eqn:E; [destruct a; discriminate |].
Qed.

Lemma basename_go_app (a f : string) : forall cur,
  basename_go cur (a +:+ "/" +:+ f) = basename_go "" f.
Proof.
  induction a as [| x a IH]; intros cur; [done |].
  change (basename_go cur (String x (a +:+ "/" +:+ f)) = basename_go "" f).
  cbn [basename_go]. destruct (Ascii.eqb x "/"); apply IH.
Qed.

Lemma basename_PDF_PATH (g : Globals) :
  basename (PDF_PATH g) = "Ebook_Agentic_AI.pdf".
Proof.
  unfold PDF_PATH, basename.
  set (up := path_join (script_dir g) "..").
  assert (Hdata : ends_with_slash (path_join up "data") = false).
  { unfold path_join. destruct (ends_with_slash up).
    - by rewrite ends_with_slash_app.
    - by rewrite <- str_app_assoc, ends_with_slash_app. }
  unfold path_join at 1. rewrite Hdata. by rewrite basename_go_app.
Qed.

(** X5: wherever the script is installed, the name that the ingestion
    takes from the path of the PDF, and records with every row, is the
    file name "Ebook_Agentic_AI.pdf". *)
Theorem pdf_name_is_file_name (g : Globals) :
  basename (PDF_PATH g) = "Ebook_Agentic_AI.pdf".
Proof. apply basename_PDF_PATH. Qed.

(** X3: with the credentials set and the PDF missing, the ingestion
    returns the error string that names the path, after the one look at
    the file system: nothing is read, embedded or stored. *)
Theorem upload_file_missing (g : Globals) (sv : Services) (h : list Call) :
  str_truthy (SUPABASE_URL g) = true ->
  str_truthy (SUPABASE_KEY g) = true ->
  path_exists sv h (PDF_PATH g) = false ->
  upload_pdf_to_supabase g sv h =
    (Returned (Some ("Error: File not found at " +:+ PDF_PATH g)),
     h ++ [PathExists (PDF_PATH g)]).
Proof.
  intros Hurl Hkey Hpath. unfold upload_pdf_to_supabase.
  rewrite Hurl, Hkey. cbn [negb orb].
  unfold bind, py_path_exists, call. by rewrite Hpath.
Qed.

Lemma upload_file_missing_witness :
  upload_pdf_to_supabase with_credentials file_missing [] =
    (Returned (Some ("Error: File not found at " +:+ PDF_PATH with_credentials)),
     [] ++ [PathExists (PDF_PATH with_credentials)]).
Proof.
  apply (upload_file_missing with_credentials file_missing []); reflexivity.
Defined.

Section IngestionLoops.

Variables (name : string) (sv : Services).

Local Abbreviation embed_calls texts := (map (EmbedContent EMBEDDING_MODEL) texts).

(** The inner loop: one embedding call per chunk, in order, and when it
    returns one row per chunk, with the name and the page it was given. *)
Lemma embed_chunks_run (page_no : Z) : forall chunks rows hist,
  exists new texts,
    snd (embed_chunks name page_no chunks rows sv hist) = hist ++ embed_calls texts
    /\ match fst (embed_chunks name page_no chunks rows sv hist) with
       | Returned rows' =>
           rows' = rows ++ new
           /\ texts = chunks
           /\ map content new = chunks
           /\ Forall (fun r => pdf_name r = name /\ page_number r = page_no) new
       | Raised _ => True
       end.
Proof.
  induction chunks as [| chunk rest IH]; intros rows hist.
  - exists [], []. cbn. by rewrite !app_nil_r.
  - cbn [embed_chunks]. unfold bind, py_embed_content, call, lift.
    destruct (embed_content sv hist EMBEDDING_MODEL chunk) as [r | e].
    + destruct (first_embedding_values r) as [v | e].
      * destruct (IH (rows ++ [row_of name page_no chunk v])
                    (hist ++ [EmbedContent EMBEDDING_MODEL chunk]))
          as (new & texts & Hlog & Hres).
        exists (row_of name page_no chunk v :: new), (chunk :: texts).
        unfold row_of in *. rewrite Hlog. split; [by rewrite <- app_assoc |].
        revert Hres. destruct (fst _); [| done].
        intros (-> & -> & Hc & Hf).
        repeat split; [by rewrite <- app_assoc | by rewrite <- Hc | by constructor].
      * exists [], [chunk]. done.
    + exists [], [chunk]. done.
Qed.

(** The loop over the pages: only embedding calls, and when it returns,
    one row per text embedded, in order, pages numbered from [i + 1]. *)
Lemma ingest_pages_run : forall pages i rows hist,
  exists new texts,
    snd (ingest_pages name i pages rows sv hist) = hist ++ embed_calls texts
    /\ match fst (ingest_pages name i pages rows sv hist) with
       | Returned rows' =>
           rows' = rows ++ new
           /\ map content new = texts
           /\ Forall (fun r => pdf_name r = name
                               /\ i < page_number r <= i + Z.of_nat (length pages)) new
           /\ StronglySorted Z.le (map page_number new)
       | Raised _ => True
       end.
Proof.
  induction pages as [| page rest IH]; intros i rows hist.
  - exists [], []. cbn. rewrite !app_nil_r. repeat split; constructor.
  - cbn [ingest_pages]. unfold bind, lift.
    destruct (extract_text page) as [extracted | e]; [| exists [], []; cbn; by rewrite app_nil_r].
    destruct (embed_chunks_run (i + 1)
                (Chunker.split_text text_splitter (or_empty extracted)) rows hist)
      as (new1 & texts1 & Hlog1 & Hres1).
    destruct (embed_chunks name (i + 1) _ rows sv hist) as [[rows1 | e] hist1];
      cbn [fst snd] in *; subst hist1; [| by exists [], texts1].
    destruct Hres1 as (-> & -> & Hc1 & Hf1).
    destruct (IH (i + 1) (rows ++ new1) (hist ++ embed_calls (map content new1)))
      as (new2 & texts2 & Hlog2 & Hres2).
    rewrite <- Hc1.
    exists (new1 ++ new2), (map content new1 ++ texts2).
    rewrite Hlog2, map_app, <- app_assoc. split; [done |].
    revert Hres2. destruct (fst _); [| done].
    intros (-> & Hc2 & Hf2 & Hs2).
    split; [by rewrite <- app_assoc |]. split; [by rewrite map_app, Hc2 |].
    split.
    + apply Forall_app. split.
      * eapply Forall_impl; [exact Hf1 |]. cbn. intros r [-> ->].
        split; [done |]. cbn [length]. lia.
      * eapply Forall_impl; [exact Hf2 |]. cbn. intros r [-> ?].
        split; [done |]. cbn [length]. lia.
    + rewrite map_app. apply StronglySorted_app_2; [| | exact Hs2].
      * intros x1 x2 H1 H2.
        apply list_elem_of_fmap in H1 as (r1 & -> & H1).
        apply list_elem_of_fmap in H2 as (r2 & -> & H2).
        rewrite Forall_forall in Hf1, Hf2.
        destruct (Hf1 r1 H1) as [_ ->]. destruct (Hf2 r2 H2) as [_ ?]. lia.
      * clear -Hf1. induction Hf1 as [| r new Hr Hf IHf]; [constructor |].
        cbn [map]. constructor; [exact IHf |].
        apply Forall_forall. intros x Hx.
        apply list_elem_of_fmap in Hx as (r' & -> & Hx).
        rewrite Forall_forall in Hf. destruct Hr as [_ ->].
        destruct (Hf r' Hx) as [_ ->]. lia.
Qed.

End IngestionLoops.


Lemma embedded_texts_app (l1 l2 : list Call) :
  embedded_texts (l1 ++ l2) = embedded_texts l1 ++ embedded_texts l2.
Proof. unfold embedded_texts. apply flat_map_app. Qed.

Lemma embedded_texts_embed_calls (model : string) (texts : list string) :
  embedded_texts (map (EmbedContent model) texts) = texts.
Proof.
  unfold embedded_texts. induction texts as [| t texts IH]; [done |].
  cbn. by rewrite IH.
Qed.

Lemma inserted_rows_app (l1 l2 : list Call) :
  inserted_rows (l1 ++ l2) = inserted_rows l1 ++ inserted_rows l2.
Proof. unfold inserted_rows. apply flat_map_app. Qed.

Lemma inserted_rows_embed_calls (model : string) (texts : list string) :
  inserted_rows (map (EmbedContent model) texts) = [].
Proof. induction texts as [| t texts IH]; [done | exact IH]. Qed.

Lemma no_insert_among_embed_calls (model : string) (texts : list string) :
  List.filter is_insert (map (EmbedContent model) texts) = [].
Proof. induction texts as [| t texts IH]; [done | exact IH]. Qed.

Lemma insert_not_embed_call table rows (model : string) (texts : list string) :
  ~ In (InsertExecute table rows) (map (EmbedContent model) texts).
Proof. induction texts as [| t texts IH]; intros H; [done |]. by destruct H. Qed.

(** The run of an ingestion: it stops at a guard, or fails to open the
    PDF, or runs the page loop and ends as [upload_tail] says. *)
Lemma upload_run (g : Globals) (sv : Services) (h : list Call) :
  let p := PDF_PATH g in
  snd (upload_pdf_to_supabase g sv h) = h
  \/ snd (upload_pdf_to_supabase g sv h) = h ++ [PathExists p]
  \/ (exists line,
        snd (upload_pdf_to_supabase g sv h)
        = h ++ [PathExists p; PdfReaderOpen p; Print line])
  \/ exists pages o log,
       pdf_reader sv (h ++ [PathExists p]) p = Returned pages
       /\ ingest_pages (basename p) 0 pages [] sv (loop_start g h pages) = (o, log)
       /\ snd (upload_pdf_to_supabase g sv h) = log ++ upload_tail sv log o.
Proof.
  intros p. remember (upload_pdf_to_supabase g sv h) as run eqn:Hrun.
  unfold upload_pdf_to_supabase in Hrun. fold p in Hrun.
  destruct (_ || _) in Hrun; [left; by subst run |].
  unfold bind at 1 in Hrun. unfold py_path_exists at 1, call at 1 in Hrun.
  destruct (negb _) in Hrun; [right; left; by subst run |].
  unfold try_except, bind at 1 in Hrun. unfold py_pdf_reader at 1, call at 1 in Hrun.
  destruct (pdf_reader sv (h ++ [PathExists p]) p) as [pages | e] eqn:Hpdf.
  - right; right; right. exists pages.
    unfold bind at 1 in Hrun. unfold py_print at 1, call at 1 in Hrun.
    unfold bind at 1 in Hrun.
    replace (((h ++ [PathExists p]) ++ [PdfReaderOpen p]) ++ [Print _])
      with (loop_start g h pages) in Hrun
      by (unfold loop_start; by rewrite <- !app_assoc).
    destruct (ingest_pages (basename p) 0 pages [] sv (loop_start g h pages))
      as [[rows | e] log].
    + exists (Returned rows), log. split; [done |]. split; [done |].
      unfold bind, py_print, py_insert, call, ret in Hrun. unfold upload_tail.
      rewrite <- !app_assoc in Hrun. cbn [app] in Hrun.
      subst run. by destruct (insert_execute _ _ _ _); cbn [snd]; rewrite <- ?app_assoc.
    + exists (Raised e), log. split; [done |]. split; [done |].
      subst run. by unfold bind, py_print, call, ret, upload_tail.
  - right; right; left. unfold py_print, bind, call, ret in Hrun. subst run. cbn [snd].
    rewrite <- !app_assoc. by eexists.
Qed.

Lemma embedded_texts_upload_tail sv log o : embedded_texts (upload_tail sv log o) = [].
Proof. by destruct o. Qed.

Lemma inserts_of_upload_tail sv log o :
  (length (List.filter is_insert (upload_tail sv log o)) <= 1)%nat.
Proof. destruct o; cbn; lia. Qed.

Lemma insert_in_upload_tail sv log o table rows :
  In (InsertExecute table rows) (upload_tail sv log o) ->
  table = TABLE_NAME /\ o = Returned rows.
Proof.
  destruct o as [rows' | e]; cbn.
  - intros [? | [? | [Heq | [? | []]]]]; try discriminate. by inversion Heq.
  - intros [? | []]; discriminate.
Qed.

(** X4: whatever the services do, the ingestion calls the store at most
    once, and when it does the batch goes to the table "pdf_pages" and
    holds exactly the texts that were embedded, one row per embedding
    call and in the order of the calls; every row carries the file name
    of the PDF and a page number of at least 1, and the page numbers
    never decrease along the batch. *)
Theorem upload_stores_what_it_embeds (g : Globals) (sv : Services) (h : list Call) :
  exists calls,
    snd (upload_pdf_to_supabase g sv h) = h ++ calls
    /\ (length (List.filter is_insert calls) <= 1)%nat
    /\ forall table rows, In (InsertExecute table rows) calls ->
         table = "pdf_pages"
         /\ map content rows = embedded_texts calls
         /\ Forall (fun r => pdf_name r = "Ebook_Agentic_AI.pdf" /\ 1 <= page_number r) rows
         /\ StronglySorted Z.le (map page_number rows).
Proof.
  destruct (upload_run g sv h) as [H | [H | [[line H] | (pages & o & log & _ & Hing & H)]]];
    cbv zeta in *.
  - exists []. rewrite app_nil_r. split; [done |]. split; [cbn; lia | intros ? ? []].
  - eexists. split; [exact H |].
    split; [cbn; lia | intros ? ? [? | []]; discriminate].
  - eexists. split; [exact H |].
    split; [cbn; lia | intros ? ? [? | [? | [? | []]]]; discriminate].
  - destruct (ingest_pages_run (basename (PDF_PATH g)) sv pages 0 [] (loop_start g h pages))
      as (new & texts & Hlog & Hres).
    rewrite Hing in Hlog, Hres. cbn [fst snd] in Hlog, Hres.
    rewrite Hlog in H at 1. unfold loop_start in H at 1. rewrite <- !app_assoc in H.
    eexists. split; [exact H |]. clear H. split.
    + rewrite !List.filter_app, no_insert_among_embed_calls, !length_app.
      pose proof (inserts_of_upload_tail sv log o). cbn. lia.
    + intros table rows Hin.
      apply in_app_or in Hin as [[? | [? | [? | []]]] | Hin]; try discriminate.
      apply in_app_or in Hin as [Hin | Hin]; [by apply insert_not_embed_call in Hin |].
      apply insert_in_upload_tail in Hin as [-> ->]. split; [done |].
      destruct Hres as (-> & Hc & Hf & Hs).
      rewrite !embedded_texts_app, embedded_texts_embed_calls,
        embedded_texts_upload_tail, app_nil_r.
      split; [exact Hc |]. split; [| exact Hs].
      eapply Forall_impl; [exact Hf |]. cbn. intros r [-> ?].
      split; [apply basename_PDF_PATH | lia].
Qed.

Section EmbeddingFails.

Variables (name : string) (sv : Services).
Hypothesis down : embedding_fails sv.

Local Abbreviation embed_calls texts := (map (EmbedContent EMBEDDING_MODEL) texts).

Lemma embed_chunks_fails page_no chunks rows hist :
  exists texts,
    snd (embed_chunks name page_no chunks rows sv hist) = hist ++ embed_calls texts
    /\ (length texts <= 1)%nat
    /\ match fst (embed_chunks name page_no chunks rows sv hist) with
       | Returned rows' => rows' = rows /\ texts = []
       | Raised _ => True
       end.
Proof.
  destruct chunks as [| chunk rest].
  - exists []. cbn. rewrite app_nil_r. split; [done | split; [lia | done]].
  - exists [chunk]. cbn [embed_chunks]. unfold bind, py_embed_content, call.
    destruct (down hist chunk) as [e ->]. cbn. split; [done | split; [lia | done]].
Qed.

Lemma ingest_pages_fails : forall pages i rows hist,
  exists texts,
    snd (ingest_pages name i pages rows sv hist) = hist ++ embed_calls texts
    /\ (length texts <= 1)%nat
    /\ match fst (ingest_pages name i pages rows sv hist) with
       | Returned rows' => rows' = rows /\ texts = []
       | Raised _ => True
       end.
Proof.
  induction pages as [| page rest IH]; intros i rows hist.
  - exists []. cbn. rewrite app_nil_r. split; [done | split; [lia | done]].
  - cbn [ingest_pages]. unfold bind, lift.
    destruct (extract_text page) as [extracted | e];
      [| exists []; cbn; rewrite app_nil_r; split; [done | split; [lia | done]]].
    destruct (embed_chunks_fails (i + 1)
                (Chunker.split_text text_splitter (or_empty extracted)) rows hist)
      as (texts & Hlog & Hlen & Hres).
    destruct (embed_chunks name (i + 1) _ rows sv hist) as [[rows1 | e] hist1];
      cbn [fst snd] in *; subst hist1; [| by exists texts].
    destruct Hres as [-> ->]. cbn [map]. rewrite app_nil_r. apply IH.
Qed.

End EmbeddingFails.

(** X6: with the embedding service failing on every call, no row reaches
    the store, and the ingestion gives up at the first embedding call:
    it makes one at most. *)
Theorem upload_embedding_down (g : Globals) (sv : Services) (h : list Call) :
  embedding_fails sv ->
  exists calls,
    snd (upload_pdf_to_supabase g sv h) = h ++ calls
    /\ inserted_rows calls = []
    /\ (length (embedded_texts calls) <= 1)%nat.
Proof.
  intros down.
  destruct (upload_run g sv h) as [H | [H | [[line H] | (pages & o & log & _ & Hing & H)]]];
    cbv zeta in *.
  - exists []. rewrite app_nil_r. split; [done |]. split; [done | cbn; lia].
  - eexists. split; [exact H |]. split; [done | cbn; lia].
  - eexists. split; [exact H |]. split; [done | cbn; lia].
  - destruct (ingest_pages_fails (basename (PDF_PATH g)) sv down pages 0 []
                (loop_start g h pages)) as (texts & Hlog & Hlen & Hres).
    rewrite Hing in Hlog, Hres. cbn [fst snd] in Hlog, Hres.
    rewrite Hlog in H at 1. unfold loop_start in H at 1. rewrite <- !app_assoc in H.
    eexists. split; [exact H |]. clear H.
    rewrite !inserted_rows_app, inserted_rows_embed_calls,
      !embedded_texts_app, embedded_texts_embed_calls, embedded_texts_upload_tail.
    split.
    + destruct o as [rows | e]; [| done]. by destruct Hres as [-> _].
    + cbn. rewrite app_nil_r. exact Hlen.
Qed.

Lemma upload_embedding_down_witness :
  exists calls,
    snd (upload_pdf_to_supabase with_credentials
           (one_page "Agents plan, act and observe." (Raised connect_error)) [])
    = [] ++ calls
    /\ inserted_rows calls = []
    /\ (length (embedded_texts calls) <= 1)%nat.
Proof.
  apply (upload_embedding_down with_credentials
           (one_page "Agents plan, act and observe." (Raised connect_error)) []).
  intros hist text. by exists connect_error.
Defined.

(** The run behind the witness: the one embedding call, then the report. *)
Example upload_embedding_down_run :
  upload_pdf_to_supabase with_credentials
    (one_page "Agents plan, act and observe." (Raised connect_error)) [] =
    (Returned None,
     [PathExists "/srv/app/../data/Ebook_Agentic_AI.pdf";
      PdfReaderOpen "/srv/app/../data/Ebook_Agentic_AI.pdf";
      Print "Processing 'Ebook_Agentic_AI.pdf' with 1 pages...";
      EmbedContent "text-embedding-004" "Agents plan, act and observe.";
      Print "An error occurred: [Errno 111] Connection refused"]).
Proof. by vm_compute. Qed.

(* ===================================================================== *)
(** * The query path: what it calls, and in what order *)
(* ===================================================================== *)

(** X7: whatever the services do, [query_documents] calls the embedding
    model with the question, then at most the store with the question
    and the vector that the embedding model returned, then at most the
    chat model with the prompt built from the rows that the store
    returned: three calls at most, in that order, and never one without
    the ones before it.  The embedding call is the only one exactly when
    it raised or its response held no vector to read. *)
Theorem query_documents_protocol (py_repr : PyVal -> string) (sv : Services)
    (h : list Call) (query : string) (use_hybrid : bool) :
  exists calls,
    snd (query_documents py_repr query use_hybrid sv h) = h ++ calls
    /\ ((calls = [embed_call query]
         /\ ((exists e, embed_content sv h "text-embedding-004" query = Raised e)
             \/ exists r e,
                  embed_content sv h "text-embedding-004" query = Returned r
                  /\ first_embedding_values r = Raised e))
        \/ exists r v,
             embed_content sv h "text-embedding-004" query = Returned r
             /\ first_embedding_values r = Returned v
             /\ (calls = [embed_call query; rpc_call query v]
                 \/ exists resp rows parts,
                      rpc_execute sv (h ++ [embed_call query])
                        "match_documents_hybrid" (hybrid_params v query) = Returned resp
                      /\ data resp = Some rows
                      /\ build_context_parts py_repr 1 rows = Returned parts
                      /\ calls = [embed_call query; rpc_call query v;
                                  chat_call (full_prompt
                                               (str_join (LF +:+ "---" +:+ LF) parts)
                                               query)])).
Proof.
  destruct (embed_content sv h "text-embedding-004" query) as [r | e] eqn:He.
  - destruct (first_embedding_values r) as [v | e] eqn:Hv.
    + destruct (rpc_execute sv (h ++ [EmbedContent "text-embedding-004" query])
                  "match_documents_hybrid" (hybrid_params v query)) as [resp | e] eqn:Hr.
      * rewrite (query_documents_answered py_repr sv h query use_hybrid r v resp He Hv Hr).
        unfold asked.
        destruct (data resp) as [[| m rows] |] eqn:Hd;
          try (eexists; split; [reflexivity |]; right; exists r, v;
               split; [done |]; split; [done |]; by left).
        destruct (build_context_parts py_repr 1 (m :: rows)) as [parts | e] eqn:Hb.
        -- rewrite get_chat_response_run, <- app_assoc.
           eexists. split; [reflexivity |]. right. exists r, v.
           split; [done |]. split; [done |]. right.
           by exists resp, (m :: rows), parts.
        -- eexists. split; [reflexivity |]. right. exists r, v.
           split; [done |]. split; [done |]. by left.
      * exists [embed_call query; rpc_call query v].
        split; [| right; exists r, v; split; [done |]; split; [done |]; by left].
        unfold query_documents, bind, py_embed_content, py_rpc, call, lift.
        by rewrite He, Hv, Hr, <- app_assoc.
    + exists [embed_call query]. split; [| left; split; [done |]; right; by exists r, e].
      unfold query_documents, bind, py_embed_content, call, lift. by rewrite He, Hv.
  - exists [embed_call query]. split; [| left; split; [done |]; left; by exists e].
    by rewrite (query_documents_embed_raises py_repr sv h query use_hybrid e He).
Qed.

Section ReadOnly.

Local Abbreviation P := (fun c => is_ingestion_call c = false).

Lemma logs_query_read_only py_repr query use_hybrid :
  logs P (query_documents py_repr query use_hybrid).
Proof.
  unfold query_documents. logs_auto.
  match goal with resp : RpcResponse |- _ =>
    destruct (data resp) as [[| m rows] |] end; logs_auto.
Qed.

Lemma logs_main_read_only py_repr : logs P (main py_repr).
Proof.
  unfold main. apply logs_bind; [logs_auto | intros _].
  apply logs_bind; [apply logs_query_read_only | intros answer]. logs_auto.
Qed.

End ReadOnly.

(** X8: the query path and the driver never touch the ingestion side:
    no call that either of them makes, in any world, looks at the file
    system, opens the PDF or inserts into the store. *)
Theorem query_side_is_read_only (py_repr : PyVal -> string)
    (query : string) (use_hybrid : bool) :
  logs (fun c => is_ingestion_call c = false) (query_documents py_repr query use_hybrid)
  /\ logs (fun c => is_ingestion_call c = false) (main py_repr).
Proof. split; [apply logs_query_read_only | apply logs_main_read_only]. Qed.

(** With well-formed rows from the store, the answer is the chat path's. *)
Lemma query_documents_with_rows (py_repr : PyVal -> string) (sv : Services)
    (h : list Call) (query : string) (use_hybrid : bool)
    (r : EmbedResponse) (v : option Vector) (resp : RpcResponse) (rows : list Row) :
  embed_content sv h "text-embedding-004" query = Returned r ->
  first_embedding_values r = Returned v ->
  rpc_execute sv (h ++ [EmbedContent "text-embedding-004" query])
    "match_documents_hybrid" (hybrid_params v query) = Returned resp ->
  data resp = Some rows ->
  rows <> [] ->
  Forall (fun m => score_formats m = true) rows ->
  Forall (fun m => has_content m = true) rows ->
  exists parts,
    build_context_parts py_repr 1 rows = Returned parts
    /\ query_documents py_repr query use_hybrid sv h =
         get_chat_response (full_prompt (str_join (LF +:+ "---" +:+ LF) parts) query)
           sv (asked h query v).
Proof.
  intros He Hv Hr Hd Hne Hs Hc.
  rewrite (query_documents_answered py_repr sv h query use_hybrid r v resp He Hv Hr), Hd.
  destruct (build_context_parts_returns py_repr rows 1 Hs Hc) as (parts & Hparts & _).
  exists parts. split; [done |]. destruct rows; [done |]. by rewrite Hparts.
Qed.

(** X9: when the store has returned well-formed rows and the chat model
    then fails, [query_documents] does not raise: it returns the string
    "Error: " followed by the text of the exception. *)
Theorem query_documents_chat_failure (py_repr : PyVal -> string) (sv : Services)
    (h : list Call) (query : string) (use_hybrid : bool)
    (r : EmbedResponse) (v : option Vector) (resp : RpcResponse) (rows : list Row)
    (e : Exn) :
  embed_content sv h "text-embedding-004" query = Returned r ->
  first_embedding_values r = Returned v ->
  rpc_execute sv (h ++ [EmbedContent "text-embedding-004" query])
    "match_documents_hybrid" (hybrid_params v query) = Returned resp ->
  data resp = Some rows ->
  rows <> [] ->
  Forall (fun m => score_formats m = true) rows ->
  Forall (fun m => has_content m = true) rows ->
  (forall prompt, generate_content sv (asked h query v) "gemini-3-flash" prompt = Raised e) ->
  fst (query_documents py_repr query use_hybrid sv h)
  = Returned (Some ("Error: " +:+ exn_str e)).
Proof.
  intros He Hv Hr Hd Hne Hs Hc Hchat.
  destruct (query_documents_with_rows py_repr sv h query use_hybrid r v resp rows
              He Hv Hr Hd Hne Hs Hc) as (parts & _ & ->).
  by rewrite get_chat_response_run, Hchat.
Qed.

Lemma query_documents_chat_failure_witness :
  fst (query_documents no_repr "Q?" true chat_down [])
  = Returned (Some ("Error: " +:+ exn_str connect_error)).
Proof.
  apply (query_documents_chat_failure no_repr chat_down [] "Q?" true
           {| embeddings := Some [Some [half]] |} (Some [half])
           {| data := Some [row_A] |} [row_A] connect_error);
    try reflexivity.
  - discriminate.
  - by repeat constructor.
  - by repeat constructor.
Defined.

(* ===================================================================== *)
(** * The prompt: every row, in rank order, then the question *)
(* ===================================================================== *)

Lemma occurs_in_order_prepend needles : forall p s,
  occurs_in_order needles s -> occurs_in_order needles (p +:+ s).
Proof.
  destruct needles as [| n rest]; intros p s H; [done |].
  destruct H as (pre & post & -> & Hrest).
  exists (p +:+ pre), post. by rewrite str_app_assoc.
Qed.

Lemma occurs_in_order_app needles1 needles2 : forall s1 s2,
  occurs_in_order needles1 s1 -> occurs_in_order needles2 s2 ->
  occurs_in_order (needles1 ++ needles2) (s1 +:+ s2).
Proof.
  induction needles1 as [| n rest IH]; intros s1 s2 H1 H2.
  - by apply occurs_in_order_prepend.
  - destruct H1 as (pre & post & -> & Hrest).
    exists pre, (post +:+ s2). split; [by rewrite !str_app_assoc | by apply IH].
Qed.

Lemma occurs_in_order_append needles s p :
  occurs_in_order needles s -> occurs_in_order needles (s +:+ p).
Proof.
  intros H. rewrite <- (app_nil_r needles). by apply occurs_in_order_app.
Qed.

Section PromptContent.

Variable py_repr : PyVal -> string.

Lemma block_head (s1 s2 s3 rest : string) :
  s1 +:+ s2 +:+ s3 +:+ rest = "" +:+ (s1 +:+ s2 +:+ s3) +:+ rest.
Proof. by rewrite !str_app_assoc. Qed.

Lemma block_body (a b c d e f g h x y : string) :
  a +:+ b +:+ c +:+ d +:+ e +:+ f +:+ g +:+ h +:+ x +:+ y
  = (a +:+ b +:+ c +:+ d +:+ e +:+ f +:+ g +:+ h) +:+ x +:+ y.
Proof. by rewrite !str_app_assoc. Qed.

(** A block shows the rank of its row, then the text of its row. *)
Lemma context_part_shows i m part :
  context_part py_repr i m = Returned part ->
  occurs_in_order (block_needles py_repr i m) part.
Proof.
  unfold block_needles, context_part, dict_getitem, dict_get.
  destruct (format_3f _) as [score_s |]; [| done]. cbn [and_then].
  destruct (m !! "content") as [c |]; [| done]. cbn [and_then default].
  intros H. inversion H; subst part. clear H.
  eexists "", _. split; [apply block_head |].
  eexists _, _. split; [apply block_body | done].
Qed.

(** The loop gives one block per row. *)
Lemma build_context_parts_length : forall rows i parts,
  build_context_parts py_repr i rows = Returned parts -> length parts = length rows.
Proof.
  induction rows as [| m rows IH]; intros i parts H; cbn [build_context_parts] in H.
  - by inversion H.
  - destruct (context_part py_repr i m) as [part |]; [| done]. cbn [and_then] in H.
    destruct (build_context_parts py_repr (i + 1) rows) as [parts' |] eqn:E; [| done].
    cbn [and_then] in H. inversion H. cbn. by rewrite (IH _ _ E).
Qed.

(** The context shows the rows one after the other, ranked from [i]. *)
Lemma build_context_parts_shows sep : forall rows i parts,
  build_context_parts py_repr i rows = Returned parts ->
  occurs_in_order (rows_needles py_repr i rows) (str_join sep parts).
Proof.
  induction rows as [| m rows IH]; intros i parts H; [done |].
  cbn [build_context_parts] in H.
  destruct (context_part py_repr i m) as [part |] eqn:Hpart; [| done].
  cbn [and_then] in H.
  destruct (build_context_parts py_repr (i + 1) rows) as [parts' |] eqn:Hparts; [| done].
  cbn [and_then] in H. inversion H; subst parts. clear H.
  cbn [rows_needles].
  pose proof (context_part_shows i m part Hpart) as H1.
  pose proof (IH (i + 1) parts' Hparts) as H2.
  pose proof (build_context_parts_length rows (i + 1) parts' Hparts) as Hlen.
  destruct parts' as [| part' parts']; cbn [str_join].
  - destruct rows; [| done]. cbn [rows_needles]. by rewrite app_nil_r.
  - apply occurs_in_order_app; [exact H1 |]. by apply occurs_in_order_prepend.
Qed.

End PromptContent.

Lemma full_prompt_shows needles context_text query :
  occurs_in_order needles context_text ->
  occurs_in_order (needles ++ ["QUESTION:"; query]) (full_prompt context_text query).
Proof.
  intros H. unfold full_prompt.
  do 8 apply occurs_in_order_prepend.
  apply occurs_in_order_app; [exact H |].
  exists (LF +:+ "    " +:+ LF +:+ "    "). eexists. split; [reflexivity |].
  exists (LF +:+ "    "). eexists. by split.
Qed.

(** X10: when the store has returned well-formed rows, the prompt handed
    to the chat model shows every row in the order the store gave them:
    for each row its rank, counted from 1, then its text; and after the
    rows the heading of the question, then the question itself. *)
Theorem prompt_shows_every_row (py_repr : PyVal -> string) (sv : Services)
    (h : list Call) (query : string) (use_hybrid : bool)
    (r : EmbedResponse) (v : option Vector) (resp : RpcResponse) (rows : list Row) :
  embed_content sv h "text-embedding-004" query = Returned r ->
  first_embedding_values r = Returned v ->
  rpc_execute sv (h ++ [EmbedContent "text-embedding-004" query])
    "match_documents_hybrid" (hybrid_params v query) = Returned resp ->
  data resp = Some rows ->
  rows <> [] ->
  Forall (fun m => score_formats m = true) rows ->
  Forall (fun m => has_content m = true) rows ->
  exists prompt,
    snd (query_documents py_repr query use_hybrid sv h)
    = asked h query v ++ [chat_call prompt]
    /\ occurs_in_order (rows_needles py_repr 1 rows ++ ["QUESTION:"; query]) prompt.
Proof.
  intros He Hv Hr Hd Hne Hs Hc.
  destruct (query_documents_with_rows py_repr sv h query use_hybrid r v resp rows
              He Hv Hr Hd Hne Hs Hc) as (parts & Hparts & ->).
  rewrite get_chat_response_run. eexists. split; [reflexivity |].
  by apply full_prompt_shows, build_context_parts_shows.
Qed.

Lemma prompt_shows_every_row_witness :
  exists prompt,
    snd (query_documents no_repr "Q?" true (answering (Some [row_A; row_Y]) []) [])
    = asked [] "Q?" (Some [half]) ++ [chat_call prompt]
    /\ occurs_in_order (rows_needles no_repr 1 [row_A; row_Y] ++ ["QUESTION:"; "Q?"])
         prompt.
Proof.
  apply (prompt_shows_every_row no_repr (answering (Some [row_A; row_Y]) []) [] "Q?" true
           {| embeddings := Some [Some [half]] |} (Some [half])
           {| data := Some [row_A; row_Y] |} [row_A; row_Y]);
    try reflexivity.
  - discriminate.
  - by repeat constructor.
  - by repeat constructor.
Defined.

(** The needles of the witness. *)
Example rows_needles_sample :
  rows_needles no_repr 1 [row_A; row_Y] = ["[Source 1 - "; "X"; "[Source 2 - "; "Y"].
Proof. by vm_compute. Qed.

(* ===================================================================== *)
(** * The chat front end *)
(* ===================================================================== *)

Section FrontEnd.

Variable py_repr : PyVal -> string.
Variables (sv : Services).

Lemma shown_messages_app (p1 p2 : list Ui.Widget) :
  shown_messages (p1 ++ p2) = shown_messages p1 ++ shown_messages p2.
Proof. unfold shown_messages. apply flat_map_app. Qed.

Lemma shown_messages_render (history : list Ui.Message) :
  shown_messages (map Ui.render history) = history.
Proof.
  unfold shown_messages.
  induction history as [| [author body] history IH]; [done |]. cbn. by rewrite IH.
Qed.

(** One run, case by case. *)
Lemma script_run chat_input session_state log0 :
  let history := default [] session_state in
  let prompt := or_empty chat_input in
  let run := Ui.script py_repr chat_input session_state sv log0 in
  let page := Ui.Title "RAG Chatbot" :: map Ui.render history
              ++ [Ui.ChatInput "What is on your mind?"] in
  (str_truthy chat_input = false
   /\ run = {| Ui.outcome := Returned tt; Ui.messages := history;
               Ui.screen := page; Ui.log := log0 |})
  \/ (str_truthy chat_input = true
      /\ exists e log1,
           query_documents py_repr prompt true sv log0 = (Raised e, log1)
           /\ run = {| Ui.outcome := Raised e;
                       Ui.messages := history ++ [Ui.user_message prompt];
                       Ui.screen := page ++ [Ui.ChatMessage "user" (Some prompt);
                                             Ui.Spinner "Thinking..."];
                       Ui.log := log1 |})
  \/ (str_truthy chat_input = true
      /\ exists answer log1,
           query_documents py_repr prompt true sv log0 = (Returned answer, log1)
           /\ run = {| Ui.outcome := Returned tt;
                       Ui.messages := (history ++ [Ui.user_message prompt])
                                      ++ [Ui.assistant_message answer];
                       Ui.screen := (page ++ [Ui.ChatMessage "user" (Some prompt);
                                              Ui.Spinner "Thinking..."])
                                    ++ [Ui.ChatMessage "assistant" answer];
                       Ui.log := log1 |}).
Proof.
  intros history prompt run page. subst run. unfold Ui.script.
  destruct (str_truthy chat_input); [| by left]. right.
  fold history prompt page.
  destruct (query_documents py_repr prompt true sv log0) as [[answer | e] log1].
  - right. split; [done |]. by exists answer, log1.
  - left. split; [done |]. by exists e, log1.
Qed.

End FrontEnd.


(** X12: what a run leaves on the page agrees with what it leaves in the
    session: the chat messages shown, read from top to bottom, are the
    messages of the session, the earlier ones first, whether the run
    returned or was ended by an exception. *)
Theorem page_shows_the_session (py_repr : PyVal -> string) (sv : Services)
    (chat_input : option string) (session_state : option (list Ui.Message))
    (log0 : list Call) :
  let run := Ui.script py_repr chat_input session_state sv log0 in
  shown_messages (Ui.screen run) = Ui.messages run.
Proof.
  destruct (script_run py_repr sv chat_input session_state log0)
    as [[Hin ->] | [[Hin (e & log1 & _ & ->)] | [Hin (answer & log1 & _ & ->)]]];
    cbn [Ui.messages Ui.screen];
    change (Ui.Title "RAG Chatbot" :: ?l) with ([Ui.Title "RAG Chatbot"] ++ l);
    rewrite !shown_messages_app, shown_messages_render; cbn; by rewrite ?app_nil_r.
Qed.

(** X13: the messages of the session are shown and kept, and never sent:
    the calls made to the services during a run, and the way the run
    ends, are the same whatever the session held before. *)
Theorem history_is_not_forwarded (py_repr : PyVal -> string) (sv : Services)
    (chat_input : option string) (state1 state2 : option (list Ui.Message))
    (log0 : list Call) :
  Ui.log (Ui.script py_repr chat_input state1 sv log0)
  = Ui.log (Ui.script py_repr chat_input state2 sv log0)
  /\ Ui.outcome (Ui.script py_repr chat_input state1 sv log0)
     = Ui.outcome (Ui.script py_repr chat_input state2 sv log0)
  /\ drop (length (default [] state1))
          (Ui.messages (Ui.script py_repr chat_input state1 sv log0))
     = drop (length (default [] state2))
          (Ui.messages (Ui.script py_repr chat_input state2 sv log0)).
Proof.
  unfold Ui.script. destruct (str_truthy chat_input).
  - destruct (query_documents py_repr (or_empty chat_input) true sv log0)
      as [[answer | e] log1]; cbn [Ui.log Ui.outcome Ui.messages];
      rewrite <- ?app_assoc, !drop_app_length; done.
  - cbn [Ui.log Ui.outcome Ui.messages]. by rewrite !drop_all.
Qed.

Section Reruns.

Variable py_repr : PyVal -> string.
Variable sv : Services.

Lemma history_after_cons state run runs :
  Ui.history_after state (run :: runs)
  = Ui.history_after (Some (Ui.messages run)) runs.
Proof.
  unfold Ui.history_after. rewrite last_cons. by destruct (last runs).
Qed.

(** When every run returns, each question is followed by its answer. *)
Lemma reruns_exchanges : forall inputs state log0,
  Forall (fun run => Ui.outcome run = Returned tt)
         (Ui.reruns py_repr inputs state sv log0) ->
  exists answers,
    length answers = length (Ui.prompts inputs)
    /\ Ui.history_after state (Ui.reruns py_repr inputs state sv log0)
       = default [] state
         ++ flat_map Ui.exchange (zip (Ui.prompts inputs) answers).
Proof.
  induction inputs as [| chat_input rest IH]; intros state log0 Hruns.
  - exists []. split; [done |]. cbn. by rewrite app_nil_r.
  - cbn [Ui.reruns] in *. inversion Hruns as [| ? ? Hrun Hrest]; subst.
    rewrite history_after_cons.
    destruct (IH _ _ Hrest) as (answers & Hlen & ->). cbn [default].
    unfold Ui.prompts. cbn [flat_map]. fold (Ui.prompts rest).
    destruct (script_run py_repr sv chat_input state log0)
      as [[Hin Heq] | [[Hin (e & log1 & _ & Heq)] | [Hin (answer & log1 & _ & Heq)]]];
      cbv zeta in Heq; rewrite Heq in *; cbn [Ui.messages Ui.outcome] in *; rewrite Hin.
    + exists answers. by split.
    + discriminate.
    + exists (answer :: answers). split; [cbn; by rewrite Hlen |].
      cbn. by rewrite <- !app_assoc.
Qed.

End Reruns.

(** X14: over any number of runs of the front end, as long as every run
    returns, the session holds what it held at the start followed by one
    question and its answer for each submission, in the order of the
    submissions: a question is never left without its answer and an
    answer never comes without its question. *)
Theorem session_is_questions_and_answers (py_repr : PyVal -> string) (sv : Services)
    (inputs : list (option string)) (session_state : option (list Ui.Message))
    (log0 : list Call) :
  Forall (fun run => Ui.outcome run = Returned tt)
         (Ui.reruns py_repr inputs session_state sv log0) ->
  exists answers,
    length answers = length (Ui.prompts inputs)
    /\ Ui.history_after session_state (Ui.reruns py_repr inputs session_state sv log0)
       = default [] session_state
         ++ flat_map Ui.exchange (zip (Ui.prompts inputs) answers).
Proof. apply reruns_exchanges. Qed.

Lemma session_is_questions_and_answers_witness :
  exists answers,
    length answers = length (Ui.prompts three_inputs)
    /\ Ui.history_after None
         (Ui.reruns no_repr three_inputs None (answering (Some [row_A]) []) [])
       = default [] None ++ flat_map Ui.exchange (zip (Ui.prompts three_inputs) answers).
Proof.
  apply (session_is_questions_and_answers no_repr (answering (Some [row_A]) [])
           three_inputs None []).
  by repeat constructor.
Defined.

(** The session of the witness. *)
Example session_sample :
  Ui.history_after None
    (Ui.reruns no_repr three_inputs None (answering (Some [row_A]) []) [])
  = [Ui.user_message "Q?"; Ui.assistant_message (Some "An answer.");
     Ui.user_message "Why?"; Ui.assistant_message (Some "An answer.")].
Proof. by vm_compute. Qed.

(** With the embedding service down the question stays, unanswered, and
    is shown again at the next run. *)
Example session_with_embedding_down :
  map Ui.messages (Ui.reruns no_repr [Some "Q?"; None] None embedding_down [])
  = [[Ui.user_message "Q?"]; [Ui.user_message "Q?"]]
  /\ map Ui.outcome (Ui.reruns no_repr [Some "Q?"; None] None embedding_down [])
     = [Raised connect_error; Returned tt].
Proof. by vm_compute. Qed.

(* ===================================================================== *)
(** * The query path: two more edges *)
(* ===================================================================== *)

(** X15: when the response of the store carries no data at all ([None]
    rather than an empty list), [query_documents] answers as it does for
    no rows: the fixed message, and no call to the chat model. *)
Theorem query_documents_no_data (py_repr : PyVal -> string) (sv : Services)
    (h : list Call) (query : string) (use_hybrid : bool)
    (r : EmbedResponse) (v : option Vector) (resp : RpcResponse) :
  embed_content sv h "text-embedding-004" query = Returned r ->
  first_embedding_values r = Returned v ->
  rpc_execute sv (h ++ [EmbedContent "text-embedding-004" query])
    "match_documents_hybrid" (hybrid_params v query) = Returned resp ->
  data resp = None ->
  query_documents py_repr query use_hybrid sv h
  = (Returned (Some NO_DOCUMENTS), asked h query v).
Proof.
  intros He Hv Hr Hd.
  by rewrite (query_documents_answered py_repr sv h query use_hybrid r v resp He Hv Hr), Hd.
Qed.

Lemma query_documents_no_data_witness :
  query_documents no_repr "Q?" true (answering None []) []
  = (Returned (Some NO_DOCUMENTS), asked [] "Q?" (Some [half])).
Proof.
  apply (query_documents_no_data no_repr (answering None []) [] "Q?" true
           {| embeddings := Some [Some [half]] |} (Some [half]) {| data := None |});
    reflexivity.
Defined.

(** The first row whose score is null stops the loop with a TypeError. *)
Lemma build_context_parts_null_score py_repr : forall before i m after,
  Forall (fun m => score_formats m = true) before ->
  Forall (fun m => has_content m = true) before ->
  m !! "combined_score" = Some PyNone ->
  build_context_parts py_repr i (before ++ m :: after)
  = Raised (mkExn "TypeError" "unsupported format string passed to NoneType.__format__").
Proof.
  induction before as [| m0 before IH]; intros i m after Hs Hc Hm.
  - cbn [app build_context_parts]. unfold context_part, dict_get. by rewrite Hm.
  - inversion Hs as [| ? ? Hs1 Hs2]; inversion Hc as [| ? ? Hc1 Hc2]; subst.
    cbn [app build_context_parts].
    destruct (context_part_returns py_repr i m0 Hs1 Hc1) as [part ->].
    cbn [and_then]. by rewrite IH.
Qed.

(** X16: a row whose combined_score is present but null, all the rows
    before it being well formed, makes [query_documents] raise a
    TypeError from the formatting of the score, although the row has its
    content; the chat model is not called. *)
Theorem query_documents_null_score (py_repr : PyVal -> string) (sv : Services)
    (h : list Call) (query : string) (use_hybrid : bool)
    (r : EmbedResponse) (v : option Vector) (resp : RpcResponse)
    (before after : list Row) (m : Row) :
  embed_content sv h "text-embedding-004" query = Returned r ->
  first_embedding_values r = Returned v ->
  rpc_execute sv (h ++ [EmbedContent "text-embedding-004" query])
    "match_documents_hybrid" (hybrid_params v query) = Returned resp ->
  data resp = Some (before ++ m :: after) ->
  Forall (fun m => score_formats m = true) before ->
  Forall (fun m => has_content m = true) before ->
  m !! "combined_score" = Some PyNone ->
  query_documents py_repr query use_hybrid sv h
  = (Raised (mkExn "TypeError" "unsupported format string passed to NoneType.__format__"),
     asked h query v).
Proof.
  intros He Hv Hr Hd Hs Hc Hm.
  rewrite (query_documents_answered py_repr sv h query use_hybrid r v resp He Hv Hr), Hd.
  rewrite (build_context_parts_null_score py_repr before 1 m after Hs Hc Hm).
  by destruct before.
Qed.

Lemma query_documents_null_score_witness :
  query_documents no_repr "Q?" true (answering (Some [row_A; row_null_score]) []) []
  = (Raised (mkExn "TypeError" "unsupported format string passed to NoneType.__format__"),
     asked [] "Q?" (Some [half])).
Proof.
  apply (query_documents_null_score no_repr (answering (Some [row_A; row_null_score]) [])
           [] "Q?" true {| embeddings := Some [Some [half]] |} (Some [half])
           {| data := Some [row_A; row_null_score] |} [row_A] [] row_null_score);
    try reflexivity; by repeat constructor.
Defined.
